(** * Civic issue workflow: trigger engine and progress submission flow

    A shallow embedding of
    - the PL/pgSQL trigger functions [auto_assign_issue_to_area],
      [handle_tender_award] and [update_issue_counts] of the workflow
      migration, together with the table constraints and the row-level
      policy of [issue_assignments] they run against, and
    - the [handleSubmit] flow of the [WorkProgressTracker] component,
    followed by the properties of the specification that concern them. *)

From Stdlib Require Import List String Ascii ZArith NArith Bool Lia.
Import ListNotations.

Local Open Scope string_scope.
Local Open Scope list_scope.

(** ** SQL values *)

Module Sql.

(** A nullable column is an [option]; [None] is NULL. *)
Definition uuid := N.

(** Three-valued truth: [None] is the unknown truth value. *)
Definition tri := option bool.

Definition eqv {A : Type} (eqb : A -> A -> bool) (x y : option A) : tri :=
  match x, y with
  | Some a, Some b => Some (eqb a b)
  | _, _ => None
  end.

Definition neqv {A : Type} (eqb : A -> A -> bool) (x y : option A) : tri :=
  match x, y with
  | Some a, Some b => Some (negb (eqb a b))
  | _, _ => None
  end.

Definition and3 (p q : tri) : tri :=
  match p, q with
  | Some false, _ => Some false
  | _, Some false => Some false
  | Some true, Some true => Some true
  | _, _ => None
  end.

(** A WHERE clause keeps a row, and an IF takes its branch, only when the
    condition is true; false and unknown both reject. *)
Definition holds (p : tri) : bool :=
  match p with
  | Some true => true
  | _ => false
  end.

Definition text_eq (x y : option string) : tri := eqv String.eqb x y.
Definition text_neq (x y : option string) : tri := neqv String.eqb x y.
Definition uuid_eq (x y : option uuid) : tri := eqv N.eqb x y.
Definition bool_eq (x y : option bool) : tri := eqv Bool.eqb x y.

(** [x IN (v1, ..., vn)] for a non-null list of literals. *)
Definition text_in (x : option string) (vs : list string) : tri :=
  match x with
  | Some s => Some (existsb (String.eqb s) vs)
  | None => None
  end.

Definition GREATEST (a b : Z) : Z := Z.max a b.

Definition is_not_null {A : Type} (x : option A) : bool :=
  match x with
  | Some _ => true
  | None => false
  end.

Inductive error : Type :=
| unique_violation (constraint : string)
| not_null_violation (column : string)
| check_violation (constraint : string)
| foreign_key_violation (column : string)
| row_security_violation (table : string).

(** The outcome of a statement: the new database, or the error that aborts
    the statement and rolls its effects back. *)
Inductive result (A : Type) : Type :=
| Ok (a : A)
| Raise (e : error).
Arguments Ok {A} a.
Arguments Raise {A} e.

End Sql.

Import Sql.

(** ** Tables *)

Record Area : Type := mkArea {
  area_id : uuid;
  area_name : string;
  area_code : string;
  area_is_active : option bool
}.

(** Modelled from the spec: the [profiles] table is created by an earlier
    migration; the columns are those the triggers and policies read. *)
Record Profile : Type := mkProfile {
  profile_id : uuid;
  user_type : option string;
  is_verified : option bool;
  profile_assigned_area_id : option uuid
}.

(** Modelled from the spec: the [issues] table is created by an earlier
    migration; the columns are those the triggers read and write, the vote
    counters being integers. *)
Record Issue : Type := mkIssue {
  issue_id : uuid;
  area : option string;
  workflow_stage : option string;
  issue_status : option string;
  assigned_area_id : option uuid;
  current_assignee_id : option uuid;
  upvotes : Z;
  downvotes : Z;
  issue_updated_at : N
}.

(** Modelled from the spec: the [tenders] table is created by an earlier
    migration; [source_issue_id] is the nullable column this migration adds. *)
Record Tender : Type := mkTender {
  tender_id : uuid;
  tender_status : option string;
  awarded_to : option uuid;
  source_issue_id : option uuid
}.

(** A row of [issue_assignments] as an INSERT supplies it; the NOT NULL and
    CHECK constraints of the table are enforced by [insert_issue_assignment].
    The generated [id] is an opaque identifier and is left out. *)
Record IssueAssignment : Type := mkIssueAssignment {
  ia_issue_id : option uuid;
  assigned_by : option uuid;
  assigned_to : option uuid;
  ia_assigned_department_id : option uuid;
  ia_assigned_area_id : option uuid;
  assignment_type : option string;
  assignment_notes : option string;
  ia_status : option string;
  ia_created_at : N;
  ia_updated_at : N
}.

(** Modelled from the spec: a row of [issue_votes], a table of an earlier
    migration. *)
Record Vote : Type := mkVote {
  vote_issue_id : option uuid;
  vote_type : option string
}.

Record Db : Type := mkDb {
  areas : list Area;
  profiles : list Profile;
  issues : list Issue;
  issue_assignments : list IssueAssignment
}.

Definition with_issues (db : Db) (l : list Issue) : Db :=
  mkDb (areas db) (profiles db) l (issue_assignments db).

Definition with_issue_assignments (db : Db) (l : list IssueAssignment) : Db :=
  mkDb (areas db) (profiles db) (issues db) l.

(** [UPDATE t SET ... WHERE c]: every row satisfying [c] is rewritten. *)
Definition update_where {A : Type} (c : A -> bool) (set : A -> A)
    (rows : list A) : list A :=
  map (fun r => if c r then set r else r) rows.

(** ** Trigger functions *)

Module Triggers.

(** *** auto_assign_issue_to_area *)

(** [SELECT a.id FROM areas a WHERE a.name = NEW.area AND a.is_active = true
    LIMIT 1]; the first row in table order stands for the unordered LIMIT. *)
Definition select_active_area (db : Db) (new_area : option string)
    : option uuid :=
  option_map area_id
    (find (fun a =>
             holds (and3 (text_eq (Some (area_name a)) new_area)
                         (bool_eq (area_is_active a) (Some true))))
          (areas db)).

(** [SELECT p.id FROM profiles p JOIN areas a ON p.assigned_area_id = a.id
    WHERE a.name = NEW.area AND p.user_type = 'area_super_admin'
    AND p.is_verified = true LIMIT 1]. *)
Definition select_area_admin (db : Db) (new_area : option string)
    : option uuid :=
  option_map profile_id
    (find (fun p =>
             existsb (fun a =>
               holds (uuid_eq (profile_assigned_area_id p) (Some (area_id a)))
               && holds (and3 (text_eq (Some (area_name a)) new_area)
                        (and3 (text_eq (user_type p) (Some "area_super_admin"))
                              (bool_eq (is_verified p) (Some true)))))
             (areas db))
          (profiles db)).

Definition set_workflow_stage (i : Issue) (s : option string) : Issue :=
  mkIssue (issue_id i) (area i) s (issue_status i) (assigned_area_id i)
          (current_assignee_id i) (upvotes i) (downvotes i)
          (issue_updated_at i).

Definition set_assignment (a c : option uuid) (i : Issue) : Issue :=
  mkIssue (issue_id i) (area i) (workflow_stage i) (issue_status i) a c
          (upvotes i) (downvotes i) (issue_updated_at i).

(** The BEFORE INSERT row trigger. It receives the table as it is before
    the row is stored, and the row [NEW] about to be stored; it returns the
    table after its own UPDATE statement and the row to store. *)
Definition auto_assign_issue_to_area (db : Db) (NEW : Issue) : Db * Issue :=
  let NEW' := set_workflow_stage NEW (Some "area_review") in
  let db' :=
    if is_not_null (area NEW') then
      with_issues db
        (update_where
           (fun i => holds (uuid_eq (Some (issue_id i)) (Some (issue_id NEW'))))
           (set_assignment (select_active_area db (area NEW'))
                           (select_area_admin db (area NEW')))
           (issues db))
    else db in
  (db', NEW').

(** [INSERT INTO issues]: the trigger runs first, then the row it returns
    is stored, the primary key being checked at that point. *)
Definition insert_issue (db : Db) (NEW : Issue) : result Db :=
  let '(db', row) := auto_assign_issue_to_area db NEW in
  if existsb (fun i => N.eqb (issue_id i) (issue_id row)) (issues db') then
    Raise (unique_violation "issues_pkey")
  else Ok (with_issues db' (issues db' ++ [row])).

(** *** handle_tender_award *)

Definition privileged_roles : list string :=
  ["admin"; "area_super_admin"; "department_admin"].

(** Policy "Admins can create assignments": [auth.uid() = assigned_by] and
    the caller's profile carries a privileged role. *)
Definition can_create_assignment (db : Db) (auth_uid : option uuid)
    (r : IssueAssignment) : bool :=
  holds (uuid_eq auth_uid (assigned_by r))
  && existsb (fun p =>
                holds (and3 (uuid_eq (Some (profile_id p)) auth_uid)
                            (text_in (user_type p) privileged_roles)))
             (profiles db).

Definition references_issue (db : Db) (k : option uuid) : bool :=
  match k with
  | None => true
  | Some id => existsb (fun i => N.eqb (issue_id i) id) (issues db)
  end.

Definition references_profile (db : Db) (k : option uuid) : bool :=
  match k with
  | None => true
  | Some id => existsb (fun p => N.eqb (profile_id p) id) (profiles db)
  end.

(** A CHECK constraint rejects a row only when its condition is false. *)
Definition check_passes (p : tri) : bool :=
  match p with
  | Some false => false
  | _ => true
  end.

(** [INSERT INTO issue_assignments] under the table's INSERT policy and
    its NOT NULL, CHECK and REFERENCES constraints. *)
Definition insert_issue_assignment (db : Db) (auth_uid : option uuid)
    (r : IssueAssignment) : result Db :=
  if negb (can_create_assignment db auth_uid r) then
    Raise (row_security_violation "issue_assignments")
  else if negb (is_not_null (ia_issue_id r)) then
    Raise (not_null_violation "issue_id")
  else if negb (is_not_null (assigned_by r)) then
    Raise (not_null_violation "assigned_by")
  else if negb (is_not_null (assignment_type r)) then
    Raise (not_null_violation "assignment_type")
  else if negb (is_not_null (ia_status r)) then
    Raise (not_null_violation "status")
  else if negb (check_passes
                  (text_in (assignment_type r)
                     ["admin_to_area"; "area_to_department";
                      "department_to_contractor"])) then
    Raise (check_violation "issue_assignments_assignment_type_check")
  else if negb (check_passes
                  (text_in (ia_status r)
                     ["active"; "completed"; "reassigned"; "cancelled"])) then
    Raise (check_violation "issue_assignments_status_check")
  else if negb (references_issue db (ia_issue_id r)) then
    Raise (foreign_key_violation "issue_id")
  else if negb (references_profile db (assigned_by r)) then
    Raise (foreign_key_violation "assigned_by")
  else if negb (references_profile db (assigned_to r)) then
    Raise (foreign_key_violation "assigned_to")
  else Ok (with_issue_assignments db (issue_assignments db ++ [r])).

Definition award_issue (assignee : option uuid) (now : N) (i : Issue)
    : Issue :=
  mkIssue (issue_id i) (area i) (Some "contractor_assigned")
          (Some "in_progress") (assigned_area_id i) assignee
          (upvotes i) (downvotes i) now.

(** The AFTER UPDATE row trigger on [tenders]; [auth_uid] is [auth.uid()]
    and [now] is [now()]. *)
Definition handle_tender_award (db : Db) (auth_uid : option uuid) (now : N)
    (OLD NEW : Tender) : result Db :=
  if holds (and3 (text_eq (tender_status NEW) (Some "awarded"))
                 (text_neq (tender_status OLD) (Some "awarded"))) then
    let db' :=
      with_issues db
        (update_where
           (fun i => holds (uuid_eq (Some (issue_id i)) (source_issue_id NEW)))
           (award_issue (awarded_to NEW) now)
           (issues db)) in
    insert_issue_assignment db' auth_uid
      (mkIssueAssignment (source_issue_id NEW) auth_uid (awarded_to NEW)
         None None (Some "department_to_contractor")
         (Some "Tender awarded - contractor assigned") (Some "active")
         now now)
  else Ok db.

(** *** update_issue_counts *)

Definition set_counts (u d : Z) (i : Issue) : Issue :=
  mkIssue (issue_id i) (area i) (workflow_stage i) (issue_status i)
          (assigned_area_id i) (current_assignee_id i) u d
          (issue_updated_at i).

Definition update_issues_by_id (db : Db) (k : option uuid)
    (set : Issue -> Issue) : Db :=
  with_issues db
    (update_where (fun i => holds (uuid_eq (Some (issue_id i)) k)) set
       (issues db)).

(** A field of the trigger's OLD or NEW record, NULL when the record is. *)
Definition field {A : Type} (r : option Vote) (f : Vote -> option A)
    : option A :=
  match r with
  | Some v => f v
  | None => None
  end.

(** The AFTER INSERT OR UPDATE OR DELETE row trigger on [issue_votes]. *)
Definition update_issue_counts (TG_TABLE_NAME TG_OP : string)
    (OLD NEW : option Vote) (db : Db) : Db :=
  if String.eqb TG_TABLE_NAME "issue_votes" then
    if String.eqb TG_OP "INSERT" then
      if holds (text_eq (field NEW vote_type) (Some "upvote")) then
        update_issues_by_id db (field NEW vote_issue_id)
          (fun i => set_counts (upvotes i + 1) (downvotes i) i)
      else if holds (text_eq (field NEW vote_type) (Some "downvote")) then
        update_issues_by_id db (field NEW vote_issue_id)
          (fun i => set_counts (upvotes i) (downvotes i + 1) i)
      else db
    else if String.eqb TG_OP "DELETE" then
      if holds (text_eq (field OLD vote_type) (Some "upvote")) then
        update_issues_by_id db (field OLD vote_issue_id)
          (fun i => set_counts (GREATEST (upvotes i - 1) 0) (downvotes i) i)
      else if holds (text_eq (field OLD vote_type) (Some "downvote")) then
        update_issues_by_id db (field OLD vote_issue_id)
          (fun i => set_counts (upvotes i) (GREATEST (downvotes i - 1) 0) i)
      else db
    else if String.eqb TG_OP "UPDATE" then
      if holds (and3 (text_eq (field OLD vote_type) (Some "upvote"))
                     (text_eq (field NEW vote_type) (Some "downvote"))) then
        update_issues_by_id db (field NEW vote_issue_id)
          (fun i => set_counts (GREATEST (upvotes i - 1) 0)
                               (downvotes i + 1) i)
      else if holds (and3 (text_eq (field OLD vote_type) (Some "downvote"))
                          (text_eq (field NEW vote_type) (Some "upvote"))) then
        update_issues_by_id db (field NEW vote_issue_id)
          (fun i => set_counts (upvotes i + 1)
                               (GREATEST (downvotes i - 1) 0) i)
      else db
    else db
  else db.

(** The three statements on [issue_votes] as the trigger sees them. *)
Definition vote_inserted (v : Vote) (db : Db) : Db :=
  update_issue_counts "issue_votes" "INSERT" None (Some v) db.

Definition vote_deleted (v : Vote) (db : Db) : Db :=
  update_issue_counts "issue_votes" "DELETE" (Some v) None db.

Definition vote_updated (old new : Vote) (db : Db) : Db :=
  update_issue_counts "issue_votes" "UPDATE" (Some old) (Some new) db.

(** The statements a client can run on [issue_votes]. *)
Inductive VoteStatement : Type :=
| InsertVote (v : Vote)
| DeleteVote (v : Vote)
| UpdateVote (old new : Vote).

Definition execute (db : Db) (s : VoteStatement) : Db :=
  match s with
  | InsertVote v => vote_inserted v db
  | DeleteVote v => vote_deleted v db
  | UpdateVote old new => vote_updated old new db
  end.


Definition nonneg_counts (i : Issue) : Prop :=
  (0 <= upvotes i)%Z /\ (0 <= downvotes i)%Z.

(** The invariant of the data model: no vote counter is negative. *)
Definition counts_nonneg (db : Db) : Prop := Forall nonneg_counts (issues db).

End Triggers.

(** ** JavaScript values *)

Module JS.

(** A string is a sequence of UTF-16 code units. *)
Definition jsstring := list N.

Definition js (s : string) : jsstring :=
  map N_of_ascii (list_ascii_of_string s).

(** WhiteSpace and LineTerminator code points, as [String.prototype.trim]
    strips them. *)
Definition isWhiteSpace (c : N) : bool :=
  existsb (N.eqb c)
    [9; 10; 11; 12; 13; 32; 160; 5760; 8232; 8233; 8239; 8287; 12288;
     65279]%N
  || (N.leb 8192 c && N.leb c 8202).

Fixpoint trimStart (s : jsstring) : jsstring :=
  match s with
  | [] => []
  | c :: r => if isWhiteSpace c then trimStart r else s
  end.

Fixpoint trimEnd (s : jsstring) : jsstring :=
  match s with
  | [] => []
  | c :: r =>
      match trimEnd r with
      | [] => if isWhiteSpace c then [] else [c]
      | r' => c :: r'
      end
  end.

Definition trim (s : jsstring) : jsstring := trimEnd (trimStart s).

(** [s.split(sep)] for a one-unit separator: never the empty array. *)
Fixpoint split (sep : N) (s : jsstring) : list jsstring :=
  match s with
  | [] => [[]]
  | c :: r =>
      if N.eqb c sep then [] :: split sep r
      else match split sep r with
           | [] => [[c]]
           | h :: t => (c :: h) :: t
           end
  end.

(** A Number: not-a-number, an infinity, a signed zero, or a finite
    nonzero double [(-1)^neg * m * 2^e]. *)
Inductive Number : Type :=
| NaN
| Infinity (neg : bool)
| Zero (neg : bool)
| Finite (neg : bool) (m : positive) (e : Z).

Definition ToBoolean_string (s : jsstring) : bool :=
  match s with
  | [] => false
  | _ :: _ => true
  end.

Definition ToBoolean_number (n : Number) : bool :=
  match n with
  | NaN => false
  | Zero _ => false
  | _ => true
  end.

(** [a || b] on numbers. *)
Definition or_number (a b : Number) : Number :=
  if ToBoolean_number a then a else b.

Record Error : Type := mkError { message : jsstring }.

(** [a === b] on strings. *)
Definition string_eqb (a b : jsstring) : bool :=
  if list_eq_dec N.eq_dec a b then true else false.

(** A string that does not start with white space. *)
Definition starts_clean (s : jsstring) : Prop :=
  match s with
  | [] => True
  | c :: _ => isWhiteSpace c = false
  end.

End JS.

Import JS.

(** ** The WorkProgressTracker component *)

Module Tracker.

Record ProgressData : Type := mkProgressData {
  title : jsstring;
  description : jsstring;
  progress_percentage : Number;
  status : jsstring;
  materials_used : list jsstring;
  labor_hours : jsstring;
  expenses_incurred : jsstring;
  milestone_reached : jsstring;
  next_milestone : jsstring;
  contractor_notes : jsstring
}.

(** An asset returned by the image picker. *)
Record Asset : Type := mkAsset { uri : jsstring }.

(** The object handed to [submitWorkProgress]. *)
Record Payload : Type := mkPayload {
  p_title : jsstring;
  p_description : jsstring;
  p_progress_percentage : Number;
  p_status : jsstring;
  p_materials_used : list jsstring;
  p_labor_hours : Number;
  p_expenses_incurred : Number;
  p_milestone_reached : jsstring;
  p_next_milestone : jsstring;
  p_contractor_notes : jsstring;
  p_issue_id : option jsstring;
  p_tender_id : option jsstring;
  p_images : list jsstring
}.

(** Modelled from the spec: the result of [uploadMultipleImages] of
    [lib/cloudinary], per-item success or failure with a public URL on
    success; the call itself may also reject. *)
Record Uploaded : Type := mkUploaded { url : jsstring }.

Record UploadResult : Type := mkUploadResult {
  successful : list Uploaded;
  failed : list jsstring
}.

Inductive UploadOutcome : Type :=
| upload_rejects (e : Error)
| upload_resolves (r : UploadResult).

(** What the flow does to the outside, in order. *)
Inductive Effect : Type :=
| Alert_alert (heading text : jsstring)
| console_error (label : jsstring) (e : Error)
| call_uploadMultipleImages (uris : list jsstring)
| call_submitWorkProgress (p : Payload)
| call_onClose.

Record Component : Type := mkComponent {
  progressData : ProgressData;
  selectedImages : list Asset;
  loading : bool
}.

(** The component state, the persisted [work_progress] rows and the log
    of effects. *)
Record St : Type := mkSt {
  comp : Component;
  work_progress : list Payload;
  log : list Effect
}.

(** *** A state monad with exceptions *)

Inductive Completion (A : Type) : Type :=
| Done (a : A)
| Threw (e : Error).
Arguments Done {A} a.
Arguments Threw {A} e.

Definition M (A : Type) : Type := St -> Completion A * St.

Definition ret {A : Type} (a : A) : M A := fun st => (Done a, st).

Definition bind {A B : Type} (m : M A) (k : A -> M B) : M B :=
  fun st =>
    match m st with
    | (Done a, st') => k a st'
    | (Threw e, st') => (Threw e, st')
    end.

Definition throw {A : Type} (e : Error) : M A := fun st => (Threw e, st).

(** [try body catch (e) handler finally fin]. *)
Definition try_catch_finally {A : Type} (body : M A) (handler : Error -> M A)
    (fin : M unit) : M A :=
  fun st =>
    let '(r, st1) :=
      match body st with
      | (Done a, st') => (Done a, st')
      | (Threw e, st') => handler e st'
      end in
    match fin st1 with
    | (Done _, st2) => (r, st2)
    | (Threw e, st2) => (Threw e, st2)
    end.

Notation "x <- m ;; k" := (bind m (fun x => k))
  (at level 61, m at next level, right associativity).
Notation "m ;; k" := (bind m (fun _ => k))
  (at level 61, right associativity).

Definition effect (e : Effect) : M unit :=
  fun st => (Done tt, mkSt (comp st) (work_progress st) (log st ++ [e])).

Definition setLoading (b : bool) : M unit :=
  fun st =>
    (Done tt,
     mkSt (mkComponent (progressData (comp st)) (selectedImages (comp st)) b)
          (work_progress st) (log st)).

Definition setProgressData (pd : ProgressData) : M unit :=
  fun st =>
    (Done tt,
     mkSt (mkComponent pd (selectedImages (comp st)) (loading (comp st)))
          (work_progress st) (log st)).

Definition setSelectedImages (imgs : list Asset) : M unit :=
  fun st =>
    (Done tt,
     mkSt (mkComponent (progressData (comp st)) imgs (loading (comp st)))
          (work_progress st) (log st)).

Definition initialProgressData : ProgressData :=
  mkProgressData [] [] (Zero false) (js "in_progress") [] [] [] [] [] [].

Definition initialState : St :=
  mkSt (mkComponent initialProgressData [] false) [] [].

Section Flow.

(** The builtins and the collaborators the component calls. *)
Variable parseFloat : jsstring -> Number.
Variable parseInt : jsstring -> Number.
Variable uploadMultipleImages : list jsstring -> UploadOutcome.

(** The store's verdict on an insert: the error of a rejected row. *)
Variable insert_error : Payload -> option Error.

(** The props of the component. *)
Variable issueId tenderId : option jsstring.

Definition await_uploadMultipleImages (uris : list jsstring)
    : M UploadResult :=
  effect (call_uploadMultipleImages uris) ;;
  match uploadMultipleImages uris with
  | upload_rejects e => throw e
  | upload_resolves r => ret r
  end.

(** Modelled from the spec: [submitWorkProgress] of [lib/supabase]
    persists the payload through a single insert call; a rejected insert
    stores nothing and comes back as [{ error }]. *)
Definition submitWorkProgress (p : Payload) : M (option Error) :=
  effect (call_submitWorkProgress p) ;;
  match insert_error p with
  | Some e => ret (Some e)
  | None =>
      fun st =>
        (Done None, mkSt (comp st) (work_progress st ++ [p]) (log st))
  end.

Definition progressPayload (pd : ProgressData) (imageUrls : list jsstring)
    : Payload :=
  mkPayload (title pd) (description pd) (progress_percentage pd)
    (status pd)
    (filter (fun m => ToBoolean_string (trim m)) (materials_used pd))
    (or_number (parseFloat (labor_hours pd)) (Zero false))
    (or_number (parseFloat (expenses_incurred pd)) (Zero false))
    (milestone_reached pd) (next_milestone pd) (contractor_notes pd)
    issueId tenderId imageUrls.

(** [handleSubmit] as the render that created it closed over
    [progressData] and [selectedImages]. *)
Definition handleSubmit (pd : ProgressData) (imgs : list Asset) : M unit :=
  if negb (ToBoolean_string (title pd))
     || negb (ToBoolean_string (description pd)) then
    effect (Alert_alert (js "Error")
              (js "Please fill in title and description"))
  else
    try_catch_finally
      (setLoading true ;;
       imageUrls <-
         (if Nat.ltb 0 (List.length imgs) then
            uploadResult <- await_uploadMultipleImages (map uri imgs) ;;
            ret (if Nat.ltb 0 (List.length (successful uploadResult))
                 then map url (successful uploadResult)
                 else [])
          else ret []) ;;
       r <- submitWorkProgress (progressPayload pd imageUrls) ;;
       match r with
       | Some error => throw error
       | None =>
           effect (Alert_alert (js "Success")
                     (js "Work progress has been submitted successfully"))
       end)
      (fun error =>
         effect (console_error (js "Error submitting progress:") error) ;;
         effect (Alert_alert (js "Error")
                   (js "Failed to submit progress: " ++ message error)))
      (setLoading false).

(** *** The events of the form *)

Inductive StatusOption : Type := in_progress | completed | on_hold.

Definition status_name (s : StatusOption) : jsstring :=
  match s with
  | in_progress => js "in_progress"
  | completed => js "completed"
  | on_hold => js "on_hold"
  end.

Inductive Event : Type :=
| ChangeTitle (text : jsstring)
| ChangeDescription (text : jsstring)
| ChangeProgressPercentage (text : jsstring)
| PressStatus (s : StatusOption)
| ChangeLaborHours (text : jsstring)
| ChangeExpenses (text : jsstring)
| ChangeMaterialsUsed (text : jsstring)
| ChangeMilestoneReached (text : jsstring)
| ChangeNextMilestone (text : jsstring)
| ChangeContractorNotes (text : jsstring)
| ImagesPicked (assets : list Asset)
| RemoveImage (index : nat)
| PressSubmit
| PressSuccessOK.

(** [selectedImages.filter((_, i) => i !== index)]. *)
Fixpoint removeImage (index : nat) (imgs : list Asset) : list Asset :=
  match imgs, index with
  | [], _ => []
  | _ :: r, O => r
  | a :: r, S n => a :: removeImage n r
  end.

(** The handler of each event, on the state of the current render. The
    OK button exists on the success alert only; accepting its press at
    any time over-approximates the reachable states. *)
Definition handler (ev : Event) (c : Component) : M unit :=
  let pd := progressData c in
  match ev with
  | ChangeTitle text =>
      setProgressData
        (mkProgressData text (description pd) (progress_percentage pd)
           (status pd) (materials_used pd) (labor_hours pd)
           (expenses_incurred pd) (milestone_reached pd)
           (next_milestone pd) (contractor_notes pd))
  | ChangeDescription text =>
      setProgressData
        (mkProgressData (title pd) text (progress_percentage pd)
           (status pd) (materials_used pd) (labor_hours pd)
           (expenses_incurred pd) (milestone_reached pd)
           (next_milestone pd) (contractor_notes pd))
  | ChangeProgressPercentage text =>
      setProgressData
        (mkProgressData (title pd) (description pd)
           (or_number (parseInt text) (Zero false))
           (status pd) (materials_used pd) (labor_hours pd)
           (expenses_incurred pd) (milestone_reached pd)
           (next_milestone pd) (contractor_notes pd))
  | PressStatus s =>
      setProgressData
        (mkProgressData (title pd) (description pd)
           (progress_percentage pd) (status_name s) (materials_used pd)
           (labor_hours pd) (expenses_incurred pd) (milestone_reached pd)
           (next_milestone pd) (contractor_notes pd))
  | ChangeLaborHours text =>
      setProgressData
        (mkProgressData (title pd) (description pd)
           (progress_percentage pd) (status pd) (materials_used pd) text
           (expenses_incurred pd) (milestone_reached pd)
           (next_milestone pd) (contractor_notes pd))
  | ChangeExpenses text =>
      setProgressData
        (mkProgressData (title pd) (description pd)
           (progress_percentage pd) (status pd) (materials_used pd)
           (labor_hours pd) text (milestone_reached pd)
           (next_milestone pd) (contractor_notes pd))
  | ChangeMaterialsUsed text =>
      setProgressData
        (mkProgressData (title pd) (description pd)
           (progress_percentage pd) (status pd)
           (filter ToBoolean_string (map trim (split 44 text)))
           (labor_hours pd) (expenses_incurred pd) (milestone_reached pd)
           (next_milestone pd) (contractor_notes pd))
  | ChangeMilestoneReached text =>
      setProgressData
        (mkProgressData (title pd) (description pd)
           (progress_percentage pd) (status pd) (materials_used pd)
           (labor_hours pd) (expenses_incurred pd) text
           (next_milestone pd) (contractor_notes pd))
  | ChangeNextMilestone text =>
      setProgressData
        (mkProgressData (title pd) (description pd)
           (progress_percentage pd) (status pd) (materials_used pd)
           (labor_hours pd) (expenses_incurred pd) (milestone_reached pd)
           text (contractor_notes pd))
  | ChangeContractorNotes text =>
      setProgressData
        (mkProgressData (title pd) (description pd)
           (progress_percentage pd) (status pd) (materials_used pd)
           (labor_hours pd) (expenses_incurred pd) (milestone_reached pd)
           (next_milestone pd) text)
  | ImagesPicked assets =>
      setSelectedImages (selectedImages c ++ assets)
  | RemoveImage index =>
      setSelectedImages (removeImage index (selectedImages c))
  | PressSubmit =>
      if loading c then ret tt
      else handleSubmit pd (selectedImages c)
  | PressSuccessOK =>
      setProgressData initialProgressData ;;
      setSelectedImages [] ;;
      effect call_onClose
  end.

Definition step (st : St) (ev : Event) : St :=
  snd (handler ev (comp st) st).

Definition run (evs : list Event) : St := fold_left step evs initialState.

(** Pressing the submit button in state [st]: the resulting state. *)
Definition submit (st : St) : St :=
  snd (handleSubmit (progressData (comp st)) (selectedImages (comp st)) st).

(** The effects a submission adds to the log. *)
Definition effects_of_submit (st : St) : list Effect :=
  log (submit (mkSt (comp st) (work_progress st) [])).

(** The upload step fails: images are attached and the upload call
    rejects with [e]. *)
Definition upload_step_fails (st : St) (e : Error) : Prop :=
  selectedImages (comp st) <> []
  /\ uploadMultipleImages (map uri (selectedImages (comp st)))
     = upload_rejects e.

(** The persist step fails: the upload step, if any, went through with
    the URLs [urls], and the insert of the payload is rejected with [e]. *)
Definition persist_step_fails (st : St) (e : Error) : Prop :=
  exists urls,
    (selectedImages (comp st) = [] /\ urls = []
     \/ selectedImages (comp st) <> []
        /\ exists r,
             uploadMultipleImages (map uri (selectedImages (comp st)))
             = upload_resolves r
             /\ urls = map url (successful r))
    /\ insert_error (progressPayload (progressData (comp st)) urls)
       = Some e.

End Flow.

(** A material entry as the store should see it: trimmed and not blank. *)
Definition tidy (m : jsstring) : Prop := trim m = m /\ m <> [].

(** The form keeps its material entries trimmed and non-blank. *)
Definition materials_tidy (st : St) : Prop :=
  Forall tidy (materials_used (progressData (comp st))).

End Tracker.

(** ** Views of the trigger engine used to state its properties *)

Module TriggerViews.

Import Triggers.

(** The issue a vote statement's trigger firing addresses: [NEW.issue_id]
    on INSERT and UPDATE, [OLD.issue_id] on DELETE. *)
Definition target (s : VoteStatement) : option uuid :=
  match s with
  | InsertVote v => vote_issue_id v
  | DeleteVote v => vote_issue_id v
  | UpdateVote _ new => vote_issue_id new
  end.

Definition addresses (k : option uuid) (i : Issue) : bool :=
  holds (uuid_eq (Some (issue_id i)) k).

(** An issue row with its two vote counters blanked out. *)
Definition without_counts (i : Issue) : Issue := set_counts 0 0 i.

(** The two vote types the counter trigger knows. *)
Definition is_vote_kind (t : option string) : bool :=
  holds (text_eq t (Some "upvote")) || holds (text_eq t (Some "downvote")).

(** The counter a vote of type [t] is counted in. *)
Definition counter (t : option string) (i : Issue) : Z :=
  if holds (text_eq t (Some "upvote")) then upvotes i
  else if holds (text_eq t (Some "downvote")) then downvotes i
  else 0%Z.

(** The primary key of [issues]: no two rows share an id. *)
Definition unique_issue_ids (db : Db) : Prop :=
  NoDup (map issue_id (issues db)).

(** The columns of an issue the award trigger does not write. *)
Definition award_untouched (i : Issue)
    : uuid * option string * option uuid * Z * Z :=
  (issue_id i, area i, assigned_area_id i, upvotes i, downvotes i).

(** The database with [is_active] of every area set to [b]. *)
Definition with_area_activity (b : option bool) (db : Db) : Db :=
  mkDb (map (fun a => mkArea (area_id a) (area_name a) (area_code a) b)
            (areas db))
       (profiles db) (issues db) (issue_assignments db).

End TriggerViews.

(** ** Row-level policies

    The USING and WITH CHECK expressions of the policies, which the
    migration grants to the authenticated role. *)

Module Policies.

Import Triggers.

Definition or3 (p q : tri) : tri :=
  match p, q with
  | Some true, _ => Some true
  | _, Some true => Some true
  | Some false, Some false => Some false
  | _, _ => None
  end.

(** [EXISTS (SELECT 1 FROM profiles WHERE id = auth.uid() AND user_type IN
    (roles))]; an EXISTS is never unknown. *)
Definition has_role (db : Db) (auth_uid : option uuid) (roles : list string)
    : bool :=
  existsb (fun p =>
             holds (and3 (uuid_eq (Some (profile_id p)) auth_uid)
                         (text_in (user_type p) roles)))
          (profiles db).

(** [EXISTS (SELECT 1 FROM profiles WHERE id = auth.uid() AND user_type =
    'admin')]. *)
Definition is_admin (db : Db) (auth_uid : option uuid) : bool :=
  existsb (fun p =>
             holds (and3 (uuid_eq (Some (profile_id p)) auth_uid)
                         (text_eq (user_type p) (Some "admin"))))
          (profiles db).

(** Policies "Anyone can read active areas" and "Admins can manage areas";
    the policies of one table are alternatives. *)
Definition can_read_area (db : Db) (auth_uid : option uuid) (a : Area)
    : bool :=
  holds (bool_eq (area_is_active a) (Some true)) || is_admin db auth_uid.

Definition can_write_area (db : Db) (auth_uid : option uuid) (a : Area)
    : bool :=
  is_admin db auth_uid.

Definition visible_areas (db : Db) (auth_uid : option uuid) : list Area :=
  filter (can_read_area db auth_uid) (areas db).

(** Policy "Users can read relevant assignments". *)
Definition can_read_assignment (db : Db) (auth_uid : option uuid)
    (r : IssueAssignment) : bool :=
  holds (or3 (uuid_eq (assigned_by r) auth_uid)
             (or3 (uuid_eq (assigned_to r) auth_uid)
                  (Some (has_role db auth_uid privileged_roles)))).

(** Policy "Contractors can manage own work progress", on the row's
    [contractor_id]. *)
Definition can_manage_work_progress (db : Db) (auth_uid : option uuid)
    (contractor_id : option uuid) : bool :=
  holds (or3 (uuid_eq auth_uid contractor_id)
             (Some (has_role db auth_uid privileged_roles))).

(** Policy "Evaluators can manage evaluations", on the row's
    [evaluator_id]. *)
Definition can_manage_evaluation (db : Db) (auth_uid : option uuid)
    (evaluator_id : option uuid) : bool :=
  holds (or3 (uuid_eq auth_uid evaluator_id)
             (Some (has_role db auth_uid ["admin"; "department_admin"]))).

End Policies.

(** ** Profile bootstrap *)

Module Bootstrap.

(** A value of a jsonb object as [->>] renders it: JSON null, or the text
    of anything else. *)
Inductive jsonb_value : Type :=
| json_null
| json_text (rendering : string).

(** A row of [auth.users]; [raw_user_meta_data] is NULL or a jsonb object,
    a list of its keys with their values. *)
Record AuthUser : Type := mkAuthUser {
  auth_id : uuid;
  auth_email : option string;
  raw_user_meta_data : option (list (string * jsonb_value))
}.

(** [object ->> key]: NULL for a NULL object, a missing key or JSON null. *)
Fixpoint lookup_text (key : string) (fields : list (string * jsonb_value))
    : option string :=
  match fields with
  | [] => None
  | (k, v) :: rest =>
      if String.eqb k key then
        match v with
        | json_null => None
        | json_text s => Some s
        end
      else lookup_text key rest
  end.

Definition arrow_text (obj : option (list (string * jsonb_value)))
    (key : string) : option string :=
  match obj with
  | None => None
  | Some fields => lookup_text key fields
  end.

Definition COALESCE (x : option string) (default : string) : option string :=
  match x with
  | Some s => Some s
  | None => Some default
  end.

(** The columns the trigger supplies to [profiles]. *)
Record ProfileValues : Type := mkProfileValues {
  pv_id : uuid;
  pv_email : option string;
  pv_user_type : option string;
  pv_full_name : option string;
  pv_first_name : option string;
  pv_last_name : option string;
  pv_created_at : N;
  pv_updated_at : N
}.

Definition allowed_user_types : list string :=
  ["user"; "admin"; "area_super_admin"; "department_admin"; "tender"].

(** Constraint [profiles_user_type_check]. *)
Definition profiles_user_type_check (t : option string) : tri :=
  text_in t allowed_user_types.

(** The AFTER INSERT row trigger on [auth.users]: the row it inserts into
    [profiles], or the error of the insert. It runs as its owner, so no
    policy applies; the table's check constraint and primary key do. *)
Definition handle_new_user (db : Db) (now : N) (NEW : AuthUser)
    : result ProfileValues :=
  let row :=
    mkProfileValues (auth_id NEW) (auth_email NEW)
      (COALESCE (arrow_text (raw_user_meta_data NEW) "user_type") "user")
      (COALESCE (arrow_text (raw_user_meta_data NEW) "full_name") "")
      (COALESCE (arrow_text (raw_user_meta_data NEW) "first_name") "")
      (COALESCE (arrow_text (raw_user_meta_data NEW) "last_name") "")
      now now in
  if negb (Triggers.check_passes (profiles_user_type_check (pv_user_type row)))
  then Raise (check_violation "profiles_user_type_check")
  else if existsb (fun p => N.eqb (profile_id p) (pv_id row)) (profiles db)
  then Raise (unique_violation "profiles_pkey")
  else Ok row.

End Bootstrap.

(** ** Views of the progress form used to state its properties *)

Module TrackerViews.

Import Tracker.

(** [array.join(sep)]. *)
Fixpoint join (sep : jsstring) (l : list jsstring) : jsstring :=
  match l with
  | [] => []
  | [x] => x
  | x :: rest => x ++ sep ++ join sep rest
  end.

(** The text the materials field displays:
    [progressData.materials_used.join(', ')]. *)
Definition materials_field_value (pd : ProgressData) : jsstring :=
  join (js ", ") (materials_used pd).

(** The statuses the check constraint of [work_progress] allows. *)
Definition work_progress_statuses : list jsstring :=
  map js ["not_started"; "in_progress"; "completed"; "on_hold"; "cancelled"].

(** The three statuses the form offers. *)
Definition offered_statuses : list jsstring :=
  [js "in_progress"; js "completed"; js "on_hold"].

Section Flow.

Variable uploadMultipleImages : list jsstring -> UploadOutcome.

(** The upload step goes through with the image URLs [urls]: no image is
    attached, or the upload call resolves. *)
Definition upload_step_yields (st : St) (urls : list jsstring) : Prop :=
  selectedImages (comp st) = [] /\ urls = []
  \/ selectedImages (comp st) <> []
     /\ exists r,
          uploadMultipleImages (map uri (selectedImages (comp st)))
          = upload_resolves r
          /\ urls = map url (successful r).

End Flow.

(** A material entry that holds no comma. *)
Definition comma_free (m : jsstring) : Prop := ~ In 44%N m.

Definition is_upload_call (e : Effect) : bool :=
  match e with
  | call_uploadMultipleImages _ => true
  | _ => false
  end.

Definition is_insert_call (e : Effect) : bool :=
  match e with
  | call_submitWorkProgress _ => true
  | _ => false
  end.

End TrackerViews.

(** ** The contractor work screen and the tab layout *)

Module Screens.

(** The signed-in identity and the profile row, by the fields read. *)
Record User : Type := mkUser { user_id : jsstring }.

Record ProfileData : Type := mkProfileData {
  profile_user_type : option jsstring
}.

(** An awarded tender as the dashboard returns it, by the fields the
    screen's logic reads. *)
Record WorkItem : Type := mkWorkItem {
  work_id : jsstring;
  work_status : option jsstring;
  awarded_amount : option Number;
  source_issue : option jsstring
}.

Record Dashboard : Type := mkDashboard {
  assignedWork_of : option (list WorkItem)
}.

Record ProgressRow : Type := mkProgressRow { progress_id : jsstring }.

(** What a helper of [lib/supabase] answers: the promise rejects, or it
    resolves to [{ data, error }]. *)
Inductive Reply (A : Type) : Type :=
| rejects (e : Error)
| resolves (data : option A) (error : option Error).
Arguments rejects {A} e.
Arguments resolves {A} data error.

(** The two counts are array lengths. *)
Record Stats : Type := mkStats {
  activeProjects : nat;
  completedProjects : nat;
  totalEarnings : Number;
  avgRating : Number
}.

Record Screen : Type := mkScreen {
  loading : bool;
  refreshing : bool;
  user : option User;
  assignedWork : list WorkItem;
  workProgress : list ProgressRow;
  showProgressTracker : bool;
  selectedWorkItem : option WorkItem;
  stats : Stats
}.

Inductive ScreenEffect : Type :=
| Alert_alert (heading text : jsstring)
| console_error (label : jsstring) (e : Error)
| router_replace (path : jsstring)
| call_getCurrentUser
| call_getUserProfile (id : jsstring)
| call_getContractorDashboard
| call_getWorkProgress (contractorId : option jsstring).

Record ScreenSt : Type := mkScreenSt {
  screen : Screen;
  effects : list ScreenEffect
}.

Definition M (A : Type) : Type :=
  ScreenSt -> Tracker.Completion A * ScreenSt.

Definition ret {A : Type} (a : A) : M A := fun st => (Tracker.Done a, st).

Definition bind {A B : Type} (m : M A) (k : A -> M B) : M B :=
  fun st =>
    match m st with
    | (Tracker.Done a, st') => k a st'
    | (Tracker.Threw e, st') => (Tracker.Threw e, st')
    end.

Definition throw {A : Type} (e : Error) : M A := fun st => (Tracker.Threw e, st).

Definition try_catch {A : Type} (body : M A) (handler : Error -> M A) : M A :=
  fun st =>
    match body st with
    | (Tracker.Done a, st') => (Tracker.Done a, st')
    | (Tracker.Threw e, st') => handler e st'
    end.

Definition try_catch_finally {A : Type} (body : M A) (handler : Error -> M A)
    (fin : M unit) : M A :=
  fun st =>
    let '(r, st1) := try_catch body handler st in
    match fin st1 with
    | (Tracker.Done _, st2) => (r, st2)
    | (Tracker.Threw e, st2) => (Tracker.Threw e, st2)
    end.

Local Notation "x <- m ;; k" := (bind m (fun x => k))
  (at level 61, m at next level, right associativity).
Local Notation "m ;; k" := (bind m (fun _ => k))
  (at level 61, right associativity).

Definition effect (e : ScreenEffect) : M unit :=
  fun st => (Tracker.Done tt, mkScreenSt (screen st) (effects st ++ [e])).

Definition modify (f : Screen -> Screen) : M unit :=
  fun st => (Tracker.Done tt, mkScreenSt (f (screen st)) (effects st)).

Definition setLoading (b : bool) : M unit :=
  modify (fun s => mkScreen b (refreshing s) (user s) (assignedWork s)
                     (workProgress s) (showProgressTracker s)
                     (selectedWorkItem s) (stats s)).

Definition setUser (u : option User) : M unit :=
  modify (fun s => mkScreen (loading s) (refreshing s) u (assignedWork s)
                     (workProgress s) (showProgressTracker s)
                     (selectedWorkItem s) (stats s)).

Definition setAssignedWork (l : list WorkItem) : M unit :=
  modify (fun s => mkScreen (loading s) (refreshing s) (user s) l
                     (workProgress s) (showProgressTracker s)
                     (selectedWorkItem s) (stats s)).

Definition setWorkProgress (l : list ProgressRow) : M unit :=
  modify (fun s => mkScreen (loading s) (refreshing s) (user s)
                     (assignedWork s) l (showProgressTracker s)
                     (selectedWorkItem s) (stats s)).



Definition setStats (x : Stats) : M unit :=
  modify (fun s => mkScreen (loading s) (refreshing s) (user s)
                     (assignedWork s) (workProgress s)
                     (showProgressTracker s) (selectedWorkItem s) x).

(** [4.2] as a double. *)
Definition number_4_2 : Number := Finite false 4728779608739021 (-50).

Definition initialScreen : Screen :=
  mkScreen true false None [] [] false None
    (mkStats 0 0 (Zero false) (Zero false)).

(** [x === literal] on a value that may be null or undefined. *)
Definition strict_eq (x : option jsstring) (literal : string) : bool :=
  match x with
  | Some s => string_eqb s (js literal)
  | None => false
  end.

Definition truthy {A : Type} (x : option A) : bool :=
  match x with
  | Some _ => true
  | None => false
  end.

Section Collaborators.

(** The helpers of [lib/supabase], each by its reply, and the addition of
    numbers. *)
Variable getCurrentUser : Reply User.
Variable getUserProfile : jsstring -> Reply ProfileData.
Variable getContractorDashboard : Reply Dashboard.
Variable getWorkProgress : option jsstring -> Reply (list ProgressRow).
Variable number_add : Number -> Number -> Number.

(** The TypeError of reading a property of null. *)
Variable type_error : Error.

Definition await {A : Type} (call : ScreenEffect) (r : Reply A)
    : M (option A * option Error) :=
  effect call ;;
  match r with
  | rejects e => throw e
  | resolves data error => ret (data, error)
  end.

Definition count_status (literal : string) (l : option (list WorkItem))
    : nat :=
  match l with
  | Some ws =>
      List.length (filter (fun w => strict_eq (work_status w) literal) ws)
  | None => 0
  end.

Definition sum_awarded (l : option (list WorkItem)) : Number :=
  match l with
  | Some ws =>
      or_number
        (fold_left
           (fun sum work =>
              number_add sum
                (match awarded_amount work with
                 | Some a => or_number a (Zero false)
                 | None => Zero false
                 end))
           ws (Zero false))
        (Zero false)
  | None => Zero false
  end.

(** [loadWorkData] as the render that created it closed over [user]. *)
Definition loadWorkData (closure_user : option User) : M unit :=
  try_catch_finally
    (setLoading true ;;
     r <- await call_getContractorDashboard getContractorDashboard ;;
     let '(dashboardData, dashboardError) := r in
     match dashboardError with
     | Some e => throw e
     | None =>
         match dashboardData with
         | None => throw type_error
         | Some d =>
             setAssignedWork
               (match assignedWork_of d with Some l => l | None => [] end) ;;
             r2 <- await
                     (call_getWorkProgress (option_map user_id closure_user))
                     (getWorkProgress (option_map user_id closure_user)) ;;
             let '(progressData, progressError) := r2 in
             match progressError with
             | Some e => throw e
             | None =>
                 setWorkProgress
                   (match progressData with Some l => l | None => [] end) ;;
                 setStats
                   (mkStats (count_status "awarded" (assignedWork_of d))
                      (count_status "completed" (assignedWork_of d))
                      (sum_awarded (assignedWork_of d))
                      number_4_2)
             end
         end
     end)
    (fun error =>
       effect (console_error (js "Error loading work data:") error) ;;
       effect (Alert_alert (js "Error") (js "Failed to load work data")))
    (setLoading false).

(** [checkContractorAccess], closed over the same render. *)
Definition checkContractorAccess (closure_user : option User) : M unit :=
  try_catch
    (r <- await call_getCurrentUser getCurrentUser ;;
     let '(currentUser, userError) := r in
     if truthy userError || negb (truthy currentUser) then
       effect (Alert_alert (js "Access Denied")
                 (js "Please sign in to access contractor work")) ;;
       effect (router_replace (js "/auth"))
     else
       match currentUser with
       | None => throw type_error
       | Some u =>
           r2 <- await (call_getUserProfile (user_id u))
                   (getUserProfile (user_id u)) ;;
           let '(profileData, profileError) := r2 in
           if truthy profileError
              || negb (truthy profileData)
              || negb (strict_eq
                         (match profileData with
                          | Some p => profile_user_type p
                          | None => None
                          end) "tender")
           then
             effect (Alert_alert (js "Access Denied")
                       (js "You do not have contractor privileges")) ;;
             effect (router_replace (js "/(tabs)"))
           else
             setUser (Some u) ;;
             loadWorkData closure_user
       end)
    (fun error =>
       effect (console_error (js "Error checking contractor access:") error) ;;
       effect (router_replace (js "/auth"))).

(** The effect hook of the first render: [user] is still null there. *)
Definition mount : ScreenSt :=
  snd (checkContractorAccess (user initialScreen)
         (mkScreenSt initialScreen [])).





(** *** TabLayout *)

(** [loadUser] of the tab layout: the profile it leaves in [user]. *)
Definition loadUser (st : option ProfileData * list ScreenEffect)
    : option ProfileData * list ScreenEffect :=
  let '(u, log) := st in
  match getCurrentUser with
  | rejects e =>
      (u, log ++ [call_getCurrentUser;
                  console_error (js "Error loading user:") e])
  | resolves currentUser _ =>
      match currentUser with
      | None => (u, log ++ [call_getCurrentUser])
      | Some cu =>
          match getUserProfile (user_id cu) with
          | rejects e =>
              (u, log ++ [call_getCurrentUser;
                          call_getUserProfile (user_id cu);
                          console_error (js "Error loading user:") e])
          | resolves profile _ =>
              (profile, log ++ [call_getCurrentUser;
                                call_getUserProfile (user_id cu)])
          end
      end
  end.

End Collaborators.

(** The [href] of the work tab: the screen's path for a contractor, null
    (tab hidden) otherwise. *)
Definition work_tab_href (u : option ProfileData) : option jsstring :=
  if strict_eq (match u with
                | Some p => profile_user_type p
                | None => None
                end) "tender"
  then Some (js "/contractor-work")
  else None.


Section Admission.

Variable getCurrentUser : Reply User.
Variable getUserProfile : jsstring -> Reply ProfileData.

(** The screen's access check is passed: a user is signed in without
    error, and the profile comes back without error with type 'tender'. *)
Definition admitted : Prop :=
  exists u p,
    getCurrentUser = resolves (Some u) None
    /\ getUserProfile (user_id u) = resolves (Some p) None
    /\ profile_user_type p = Some (js "tender").

End Admission.

End Screens.

(** ** Sample data *)

Module Samples.

Import Triggers.

Local Open Scope N_scope.

Definition cbd : Area := mkArea 1 "Central Business District" "CBD" (Some true).

Definition dept_admin : Profile :=
  mkProfile 20 (Some "department_admin") (Some true) None.

Definition contractor : Profile := mkProfile 30 (Some "tender") (Some true) None.

Definition pothole : Issue :=
  mkIssue 10 (Some "Central Business District") (Some "department_assigned")
          (Some "open") None None 2%Z 1%Z 0.

Definition db0 : Db := mkDb [cbd] [dept_admin; contractor] [pothole] [].

(** A new report naming the sample area, with no assignment supplied. *)
Definition new_report : Issue :=
  mkIssue 11 (Some "Central Business District") (Some "reported")
          (Some "open") None None 0%Z 0%Z 0.

Definition tender_open : Tender := mkTender 40 (Some "open") None (Some 10%N).
Definition tender_awarded : Tender :=
  mkTender 40 (Some "awarded") (Some 30%N) (Some 10%N).

Definition upvote_on_pothole : Vote := mkVote (Some 10%N) (Some "upvote").

Import Tracker.

(** The value of a string of ASCII digits, as [parseFloat] and [parseInt]
    read it; any other string is not a number here. *)
Fixpoint digits_value (acc : N) (s : jsstring) : option N :=
  match s with
  | [] => Some acc
  | c :: r =>
      if N.leb 48 c && N.leb c 57
      then digits_value (10 * acc + (c - 48)) r
      else None
  end.

Definition parse_digits (s : jsstring) : Number :=
  match s with
  | [] => NaN
  | _ =>
      match digits_value 0 s with
      | None => NaN
      | Some 0 => Zero false
      | Some (Npos p) => Finite false p 0
      end
  end.

(** An upload service on which the photo named "b.jpg" fails. *)
Definition upload_all_but_b (uris : list jsstring) : UploadOutcome :=
  upload_resolves
    (mkUploadResult
       (map (fun u => mkUploaded (js "https://cdn/" ++ u))
            (filter (fun u => negb (string_eqb u (js "b.jpg"))) uris))
       (filter (fun u => string_eqb u (js "b.jpg")) uris)).

Definition upload_down (uris : list jsstring) : UploadOutcome :=
  upload_rejects (mkError (js "Network request failed")).

Definition accept_all (p : Payload) : option Error := None.

Definition filled_form : ProgressData :=
  mkProgressData (js "Patching") (js "Filled two potholes") (Zero false)
    (js "in_progress") [js "asphalt"; js "gravel"] (js "8") (js "abc")
    [] [] [].

Definition two_photos : list Asset :=
  [mkAsset (js "a.jpg"); mkAsset (js "b.jpg")].

Definition ready : St := mkSt (mkComponent filled_form two_photos false) [] [].

Definition untitled : St :=
  mkSt (mkComponent
          (mkProgressData [] (js "Filled two potholes") (Zero false)
             (js "in_progress") [] [] [] [] [] [])
          two_photos false) [] [].

(** The events that fill the form and attach the two photos. *)
Definition filling : list Event :=
  [ChangeTitle (js "Patching"); ChangeDescription (js "Filled two potholes");
   ChangeMaterialsUsed (js " asphalt , ,gravel "); ChangeLaborHours (js "8");
   ChangeExpenses (js "abc"); ImagesPicked two_photos].

End Samples.

(** ** More sample data *)

Module MoreSamples.

Import Triggers Bootstrap.

Local Open Scope N_scope.

(** An issue nobody has voted on. *)
Definition unvoted : Issue :=
  mkIssue 12 None (Some "area_review") (Some "open") None None 0%Z 0%Z 0.

Definition quiet_db : Db :=
  mkDb [Samples.cbd] [Samples.dept_admin; Samples.contractor] [unvoted] [].

Definition upvote_on_unvoted : Vote := mkVote (Some 12) (Some "upvote").

(** A tender that was never tied to an issue. *)
Definition orphan_tender_open : Tender := mkTender 41 (Some "open") None None.
Definition orphan_tender_awarded : Tender :=
  mkTender 41 (Some "awarded") (Some 30) None.

(** A sign-up that supplies nothing, and one that asks for the admin role. *)
Definition plain_signup : AuthUser :=
  mkAuthUser 50 (Some "citizen@example.org") None.

Definition admin_signup : AuthUser :=
  mkAuthUser 51 (Some "mallory@example.org")
    (Some [("full_name", json_text "Mallory"); ("user_type", json_text "admin")]).

Definition odd_signup : AuthUser :=
  mkAuthUser 52 None (Some [("user_type", json_text "superuser")]).

Import Tracker.

(** The filled form with no photo attached. *)
Definition no_photos : St :=
  mkSt (mkComponent Samples.filled_form [] false) [] [].

(** Filling the form and putting the work on hold. *)
Definition filling_on_hold : list Event :=
  Samples.filling ++ [PressStatus on_hold].

Import Screens.

(** A signed-in contractor and the replies of the store for them. *)
Definition signed_in : Reply User := resolves (Some (mkUser (js "u-30"))) None.

Definition tender_profile (id : jsstring) : Reply ProfileData :=
  resolves (Some (mkProfileData (Some (js "tender")))) None.

Definition road_repair : WorkItem :=
  mkWorkItem (js "tender-40") (Some (js "awarded")) None
    (Some (js "issue-10")).

Definition dashboard : Reply Dashboard :=
  resolves (Some (mkDashboard (Some [road_repair]))) None.

Definition progress_unavailable (id : option jsstring)
    : Reply (list ProgressRow) :=
  resolves None (Some (mkError (js "permission denied"))).

(** An addition that is never called on the sample data's amounts. *)
Definition add_zero (a b : Number) : Number := a.

End MoreSamples.

(** ** Properties of the trigger engine *)

Module TriggerFacts.

Import Triggers.

Local Open Scope Z_scope.

Lemma with_issues_same (db : Db) : with_issues db (issues db) = db.
Proof. now destruct db. Qed.

Lemma update_where_undo {A : Type} (c : A -> bool) (f g : A -> A)
    (P : A -> Prop) (rows : list A) :
  Forall P rows ->
  (forall r, P r -> c r = true -> c (f r) = true /\ g (f r) = r) ->
  update_where c g (update_where c f rows) = rows.
Proof.
  intros HP Hfg. unfold update_where.
  induction HP as [|r rows Hr _ IH]; simpl; [reflexivity|].
  rewrite IH. f_equal.
  destruct (c r) eqn:Hc.
  - destruct (Hfg r Hr Hc) as [Hc' Hg]. now rewrite Hc', Hg.
  - now rewrite Hc.
Qed.

Lemma update_where_Forall {A : Type} (c : A -> bool) (f : A -> A)
    (P : A -> Prop) (rows : list A) :
  Forall P rows ->
  (forall r, P r -> c r = true -> P (f r)) ->
  Forall P (update_where c f rows).
Proof.
  intros HP Hf. unfold update_where.
  induction HP as [|r rows Hr _ IH]; simpl; constructor; auto.
  destruct (c r) eqn:Hc; auto.
Qed.

Lemma update_issues_by_id_nonneg (db : Db) (k : option uuid)
    (set : Issue -> Issue) :
  counts_nonneg db ->
  (forall i, nonneg_counts i -> nonneg_counts (set i)) ->
  counts_nonneg (update_issues_by_id db k set).
Proof.
  intros H Hset. unfold counts_nonneg, update_issues_by_id. simpl.
  apply update_where_Forall; auto.
Qed.

Lemma update_issues_by_id_undo (db : Db) (k : option uuid)
    (f g : Issue -> Issue) :
  counts_nonneg db ->
  (forall i, issue_id (f i) = issue_id i) ->
  (forall i, nonneg_counts i -> g (f i) = i) ->
  update_issues_by_id (update_issues_by_id db k f) k g = db.
Proof.
  intros H Hid Hg. unfold update_issues_by_id. simpl.
  rewrite (update_where_undo _ f g nonneg_counts); auto.
  - now destruct db.
  - intros r Hr Hc. rewrite Hid. auto.
Qed.

Ltac counts :=
  unfold nonneg_counts, set_counts, GREATEST; simpl; intros; lia.

(** Every firing of the counter trigger preserves the invariant, whatever
    the operation and the rows. *)
Lemma update_issue_counts_nonneg (t op : string) (OLD NEW : option Vote)
    (db : Db) :
  counts_nonneg db -> counts_nonneg (update_issue_counts t op OLD NEW db).
Proof.
  intros H. unfold update_issue_counts.
  repeat match goal with
         | |- counts_nonneg (if ?b then _ else _) => destruct b
         end; auto;
    apply update_issues_by_id_nonneg; auto; counts.
Qed.

(** Any sequence of vote statements, in any order, keeps the counters
    non-negative. *)
Lemma vote_statements_nonneg (ss : list VoteStatement) (db : Db) :
  counts_nonneg db -> counts_nonneg (fold_left execute ss db).
Proof.
  revert db. induction ss as [|s ss IH]; simpl; intros db H; auto.
  apply IH. destruct s; apply update_issue_counts_nonneg; auto.
Qed.

(** C4. A vote inserted on an issue and then deleted leaves the upvote and
    downvote counters of every issue as they were before the insert, and
    the counters are non-negative after the insert and after the delete,
    the counters being non-negative to begin with. *)
Theorem vote_insert_then_delete (db : Db) (v : Vote) :
  counts_nonneg db ->
  vote_deleted v (vote_inserted v db) = db
  /\ counts_nonneg (vote_inserted v db)
  /\ counts_nonneg (vote_deleted v (vote_inserted v db)).
Proof.
  intros H. split.
  - unfold vote_deleted, vote_inserted, update_issue_counts. simpl.
    destruct (holds (text_eq (vote_type v) (Some "upvote"))) eqn:Hu.
    + apply update_issues_by_id_undo; auto.
      intros [id a w s aa ca u d t] [Hup Hdn]. simpl in *.
      unfold set_counts, GREATEST. simpl. f_equal. lia.
    + destruct (holds (text_eq (vote_type v) (Some "downvote"))) eqn:Hd.
      * apply update_issues_by_id_undo; auto.
        intros [id a w s aa ca u d t] [Hup Hdn]. simpl in *.
        unfold set_counts, GREATEST. simpl. f_equal. lia.
      * reflexivity.
  - split; repeat apply update_issue_counts_nonneg; exact H.
Qed.

Lemma vote_insert_then_delete_witness :
  counts_nonneg Samples.db0
  /\ vote_deleted Samples.upvote_on_pothole
       (vote_inserted Samples.upvote_on_pothole Samples.db0) = Samples.db0.
Proof.
  assert (H : counts_nonneg Samples.db0).
  { repeat constructor; simpl; lia. }
  split; [exact H|].
  exact (proj1 (vote_insert_then_delete Samples.db0
                  Samples.upvote_on_pothole H)).
Defined.

(** C10. An UPDATE of a vote whose type is unchanged leaves the database,
    and so both counters of every issue, exactly as it was. *)
Theorem vote_update_same_type (db : Db) (old new : Vote) :
  vote_type old = vote_type new ->
  vote_updated old new db = db.
Proof.
  intros E. unfold vote_updated, update_issue_counts. simpl. rewrite E.
  destruct (vote_type new) as [s|]; simpl; [|reflexivity].
  destruct (String.eqb_spec s "upvote") as [->|]; simpl; [reflexivity|].
  destruct (String.eqb_spec s "downvote") as [->|]; reflexivity.
Qed.

Lemma vote_update_same_type_witness :
  vote_updated Samples.upvote_on_pothole
    (mkVote (Some 10%N) (Some "upvote")) Samples.db0 = Samples.db0.
Proof.
  apply (vote_update_same_type Samples.db0 Samples.upvote_on_pothole
           (mkVote (Some 10%N) (Some "upvote"))).
  reflexivity.
Defined.

(** *** Tender award *)

(** C3. When the old status of the updated tender is already 'awarded',
    the award trigger changes nothing: no issue is updated and no
    IssueAssignment row is inserted. *)
Theorem award_of_awarded_tender_is_noop (db : Db) (auth_uid : option uuid)
    (now : N) (OLD NEW : Tender) :
  tender_status OLD = Some "awarded" ->
  handle_tender_award db auth_uid now OLD NEW = Ok db.
Proof.
  intros H. unfold handle_tender_award. rewrite H.
  destruct (tender_status NEW) as [s|]; simpl; [|reflexivity].
  destruct (String.eqb s "awarded"); reflexivity.
Qed.

Lemma award_of_awarded_tender_is_noop_witness :
  handle_tender_award Samples.db0 (Some 20%N) 7 Samples.tender_awarded
    Samples.tender_awarded = Ok Samples.db0.
Proof.
  apply (award_of_awarded_tender_is_noop Samples.db0 (Some 20%N) 7
           Samples.tender_awarded Samples.tender_awarded).
  reflexivity.
Defined.

(** An old status that is NULL is no value at all: the comparison is
    unknown and the trigger does nothing. *)
Lemma award_from_null_status_is_noop (db : Db) (auth_uid : option uuid)
    (now : N) (OLD NEW : Tender) :
  tender_status OLD = None ->
  handle_tender_award db auth_uid now OLD NEW = Ok db.
Proof.
  intros H. unfold handle_tender_award. rewrite H.
  destruct (tender_status NEW) as [s|]; simpl; [|reflexivity].
  destruct (String.eqb s "awarded"); reflexivity.
Qed.

Lemma insert_issue_assignment_Ok (db db' : Db) (auth_uid : option uuid)
    (r : IssueAssignment) :
  insert_issue_assignment db auth_uid r = Ok db' ->
  db' = with_issue_assignments db (issue_assignments db ++ [r])
  /\ references_issue db (ia_issue_id r) = true
  /\ is_not_null (ia_issue_id r) = true.
Proof.
  unfold insert_issue_assignment.
  repeat match goal with
         | |- (if negb ?b then _ else _) = _ -> _ =>
             destruct b eqn:?; simpl; [|discriminate]
         end.
  intros E. injection E as <-. auto.
Qed.

Lemma award_condition (OLD NEW : Tender) (s : string) :
  tender_status OLD = Some s -> s <> "awarded" ->
  tender_status NEW = Some "awarded" ->
  holds (and3 (text_eq (tender_status NEW) (Some "awarded"))
              (text_neq (tender_status OLD) (Some "awarded"))) = true.
Proof.
  intros -> Hs ->. simpl.
  destruct (String.eqb_spec s "awarded"); [contradiction|reflexivity].
Qed.

Lemma In_update_where {A : Type} (c : A -> bool) (set : A -> A)
    (rows : list A) (x : A) :
  In x (update_where c set rows) ->
  exists r, In r rows /\ x = (if c r then set r else r).
Proof.
  unfold update_where. rewrite in_map_iff.
  intros [r [E Hr]]. exists r. auto.
Qed.

Lemma existsb_id_update_where (k : uuid) (c : Issue -> bool)
    (set : Issue -> Issue) (rows : list Issue) :
  (forall i, issue_id (set i) = issue_id i) ->
  existsb (fun i => N.eqb (issue_id i) k) (update_where c set rows)
  = existsb (fun i => N.eqb (issue_id i) k) rows.
Proof.
  intros Hid. unfold update_where.
  induction rows as [|r rows IH]; simpl; [reflexivity|].
  rewrite IH. destruct (c r); [rewrite Hid|]; reflexivity.
Qed.

(** C2. A tender update that takes the status from a value other than
    'awarded' to 'awarded' sets the source issue's workflow_stage to
    'contractor_assigned', its status to 'in_progress' and its
    current_assignee_id to the tender's awarded_to, and appends exactly
    one IssueAssignment row, of type 'department_to_contractor' and status
    'active', authored by the caller. *)
Theorem tender_award_propagates (db db' : Db) (auth_uid : option uuid)
    (now : N) (OLD NEW : Tender) (s : string) :
  tender_status OLD = Some s -> s <> "awarded" ->
  tender_status NEW = Some "awarded" ->
  handle_tender_award db auth_uid now OLD NEW = Ok db' ->
  exists (iid : uuid) (r : IssueAssignment),
    source_issue_id NEW = Some iid
    /\ (exists i, In i (issues db') /\ issue_id i = iid)
    /\ (forall i, In i (issues db') -> issue_id i = iid ->
          workflow_stage i = Some "contractor_assigned"
          /\ issue_status i = Some "in_progress"
          /\ current_assignee_id i = awarded_to NEW)
    /\ issue_assignments db' = issue_assignments db ++ [r]
    /\ assignment_type r = Some "department_to_contractor"
    /\ ia_status r = Some "active"
    /\ ia_issue_id r = Some iid
    /\ assigned_by r = auth_uid
    /\ assigned_to r = awarded_to NEW.
Proof.
  intros Hold Hs Hnew Hrun. unfold handle_tender_award in Hrun.
  rewrite (award_condition OLD NEW s Hold Hs Hnew) in Hrun.
  apply insert_issue_assignment_Ok in Hrun.
  destruct Hrun as [-> [Hfk Hnn]]. simpl in Hfk, Hnn.
  destruct (source_issue_id NEW) as [iid|] eqn:Hsrc; [|discriminate].
  eexists iid, _. split; [reflexivity|]. simpl.
  split.
  - apply existsb_exists in Hfk. destruct Hfk as [i [Hi Hid]].
    exists i. split; [exact Hi|]. now apply N.eqb_eq.
  - split; [|repeat split; reflexivity].
    intros i Hi Hid. apply In_update_where in Hi.
    destruct Hi as [r [_ ->]]. simpl in *.
    destruct (N.eqb (issue_id r) iid) eqn:E.
    + simpl. auto.
    + apply N.eqb_neq in E. contradiction.
Qed.

Lemma tender_award_propagates_witness :
  exists db' iid r,
    handle_tender_award Samples.db0 (Some 20%N) 7 Samples.tender_open
      Samples.tender_awarded = Ok db'
    /\ source_issue_id Samples.tender_awarded = Some iid
    /\ issue_assignments db' = issue_assignments Samples.db0 ++ [r]
    /\ assignment_type r = Some "department_to_contractor".
Proof.
  eexists.
  destruct (tender_award_propagates Samples.db0 _ (Some 20%N) 7
              Samples.tender_open Samples.tender_awarded "open"
              eq_refl ltac:(discriminate) eq_refl eq_refl)
    as [iid [r [H1 [_ [_ [H2 [H3 _]]]]]]].
  exists iid, r. split; [reflexivity|]. split; [exact H1|].
  split; [exact H2|exact H3].
Defined.

(** The award goes through whenever the tender has a source issue, the
    caller holds a privileged role and the awarded contractor, if any, has
    a profile. *)
Lemma tender_award_succeeds (db : Db) (u iid : uuid) (now : N)
    (OLD NEW : Tender) (s : string) :
  tender_status OLD = Some s -> s <> "awarded" ->
  tender_status NEW = Some "awarded" ->
  source_issue_id NEW = Some iid ->
  references_issue db (Some iid) = true ->
  can_create_assignment db (Some u)
    (mkIssueAssignment None (Some u) None None None None None None 0 0)
  = true ->
  references_profile db (awarded_to NEW) = true ->
  exists db', handle_tender_award db (Some u) now OLD NEW = Ok db'.
Proof.
  intros Hold Hs Hnew Hsrc Hfk Hrls Haw. unfold handle_tender_award.
  rewrite (award_condition OLD NEW s Hold Hs Hnew), Hsrc.
  unfold insert_issue_assignment.
  unfold can_create_assignment in *. simpl in *.
  rewrite N.eqb_refl in *. simpl in *. rewrite Hrls. simpl.
  rewrite existsb_id_update_where by reflexivity. rewrite Hfk. simpl.
  assert (Hu : existsb (fun p => N.eqb (profile_id p) u) (profiles db) = true).
  { apply existsb_exists in Hrls. destruct Hrls as [p [Hp Hc]].
    apply existsb_exists. exists p. split; [exact Hp|].
    destruct (N.eqb (profile_id p) u); [reflexivity|].
    simpl in Hc. destruct (user_type p); discriminate. }
  rewrite Hu. simpl.
  replace (references_profile _ (awarded_to NEW)) with true
    by (symmetry; exact Haw).
  simpl. eauto.
Qed.

(** *** Issue creation *)

Lemma update_where_none {A : Type} (c : A -> bool) (set : A -> A)
    (rows : list A) :
  existsb c rows = false -> update_where c set rows = rows.
Proof.
  unfold update_where. induction rows as [|r rows IH]; simpl; [reflexivity|].
  intros H. apply orb_false_iff in H. destruct H as [Hr Hrows].
  now rewrite Hr, IH.
Qed.

Lemma existsb_pointwise {A : Type} (f g : A -> bool) (rows : list A) :
  (forall x, f x = g x) -> existsb f rows = existsb g rows.
Proof.
  intros H. induction rows as [|r rows IH]; simpl; [reflexivity|].
  now rewrite H, IH.
Qed.

(** The UPDATE of the BEFORE INSERT trigger looks for the row that is not
    stored yet: on every insert that succeeds it rewrites nothing, and the
    row is stored with the assignment columns as supplied. *)
Lemma insert_issue_Ok (db db' : Db) (NEW : Issue) :
  insert_issue db NEW = Ok db' ->
  db' = with_issues db
          (issues db ++ [set_workflow_stage NEW (Some "area_review")]).
Proof.
  unfold insert_issue, auto_assign_issue_to_area. simpl.
  destruct (area NEW) as [a|]; simpl.
  - rewrite existsb_id_update_where by reflexivity.
    destruct (existsb _ (issues db)) eqn:E; [discriminate|].
    intros H. injection H as <-.
    rewrite update_where_none; [reflexivity|].
    rewrite <- E. apply existsb_pointwise. intros i. simpl.
    now destruct (N.eqb (issue_id i) (issue_id NEW)).
  - destruct (existsb _ (issues db)); [discriminate|].
    intros H. now injection H as <-.
Qed.

(** C8. Whatever fields a new issue supplies, the row the insert trigger
    hands to the table, and so the row a successful insert stores, has
    workflow_stage 'area_review'. *)
Theorem new_issue_enters_area_review (db : Db) (NEW : Issue) :
  workflow_stage (snd (auto_assign_issue_to_area db NEW))
  = Some "area_review"
  /\ forall db', insert_issue db NEW = Ok db' ->
       exists row,
         issues db' = issues db ++ [row]
         /\ issue_id row = issue_id NEW
         /\ workflow_stage row = Some "area_review".
Proof.
  split; [reflexivity|].
  intros db' H. apply insert_issue_Ok in H. subst db'.
  eexists. simpl. repeat split.
Qed.

Lemma new_issue_enters_area_review_witness :
  exists db' row,
    insert_issue Samples.db0 Samples.new_report = Ok db'
    /\ issues db' = issues Samples.db0 ++ [row]
    /\ workflow_stage row = Some "area_review".
Proof.
  eexists.
  destruct (proj2 (new_issue_enters_area_review Samples.db0
                     Samples.new_report) _ eq_refl)
    as [row [H1 [_ H2]]].
  exists row. split; [reflexivity|]. split; [exact H1|exact H2].
Defined.

(** C1, at a failing input. The new report names the active area
    'Central Business District' (id 1), to which no verified
    area_super_admin is bound; the insert succeeds and stores the row with
    [assigned_area_id] still NULL. *)
Theorem auto_assign_leaves_area_unset :
  select_active_area Samples.db0 (area Samples.new_report) = Some 1%N
  /\ select_area_admin Samples.db0 (area Samples.new_report) = None
  /\ exists db',
       insert_issue Samples.db0 Samples.new_report = Ok db'
       /\ map (fun i => (issue_id i, assigned_area_id i,
                         current_assignee_id i)) (issues db')
          = [(10%N, None, None); (11%N, None, None)].
Proof.
  split; [reflexivity|]. split; [reflexivity|].
  eexists. split; reflexivity.
Qed.

End TriggerFacts.

(** ** Properties of string trimming *)

Module JSFacts.

Lemma trimEnd_keeps_head (c : N) (r : jsstring) :
  isWhiteSpace c = false -> trimEnd (c :: r) = c :: trimEnd r.
Proof.
  intros H. simpl. rewrite H. now destruct (trimEnd r).
Qed.

Lemma trimEnd_idempotent (s : jsstring) : trimEnd (trimEnd s) = trimEnd s.
Proof.
  induction s as [|c r IH]; [reflexivity|].
  simpl. destruct (trimEnd r) as [|x t] eqn:E.
  - destruct (isWhiteSpace c) eqn:W; simpl; [reflexivity|now rewrite W].
  - change (trimEnd (c :: x :: t)) with
      (match trimEnd (x :: t) with
       | [] => if isWhiteSpace c then [] else [c]
       | r' => c :: r'
       end).
    now rewrite IH.
Qed.

Lemma trimStart_clean (s : jsstring) : starts_clean (trimStart s).
Proof.
  induction s as [|c r IH]; simpl; [exact I|].
  destruct (isWhiteSpace c) eqn:W; [exact IH|exact W].
Qed.

Lemma trimStart_of_clean (s : jsstring) : starts_clean s -> trimStart s = s.
Proof.
  destruct s as [|c r]; simpl; [reflexivity|]. now intros ->.
Qed.

Lemma trimEnd_clean (s : jsstring) : starts_clean s -> starts_clean (trimEnd s).
Proof.
  destruct s as [|c r]; [exact (fun H => H)|].
  intros H. simpl in H. rewrite (trimEnd_keeps_head c r H). exact H.
Qed.

Lemma trim_idempotent (s : jsstring) : trim (trim s) = trim s.
Proof.
  unfold trim.
  rewrite (trimStart_of_clean (trimEnd (trimStart s))).
  - apply trimEnd_idempotent.
  - apply trimEnd_clean, trimStart_clean.
Qed.

End JSFacts.

(** ** Properties of the progress submission flow *)

Module TrackerFacts.

Import Tracker JSFacts.

Lemma ToBoolean_string_true (s : jsstring) :
  s <> [] -> ToBoolean_string s = true.
Proof. destruct s; [contradiction|reflexivity]. Qed.

Lemma imageUrls_all (l : list Uploaded) :
  (if Nat.ltb 0 (List.length l) then map url l else []) = map url l.
Proof. now destruct l. Qed.

Lemma attached (imgs : list Asset) :
  imgs <> [] -> Nat.ltb 0 (List.length imgs) = true.
Proof. destruct imgs; [contradiction|reflexivity]. Qed.

Lemma trimmed_entries_tidy (l : list jsstring) :
  Forall tidy (filter ToBoolean_string (map trim l)).
Proof.
  induction l as [|m l IH]; simpl; [constructor|].
  destruct (ToBoolean_string (trim m)) eqn:E; [|exact IH].
  constructor; [|exact IH]. split; [apply trim_idempotent|].
  intros H. rewrite H in E. discriminate.
Qed.

Lemma filter_tidy (l : list jsstring) :
  Forall tidy l -> filter (fun m => ToBoolean_string (trim m)) l = l.
Proof.
  induction 1 as [|m l [Ht Hne] _ IH]; simpl; [reflexivity|].
  rewrite Ht, (ToBoolean_string_true m Hne). now rewrite IH.
Qed.

Ltac flow :=
  unfold effects_of_submit, submit, handleSubmit, try_catch_finally, bind,
    ret, throw, effect, setLoading, setProgressData, setSelectedImages,
    submitWorkProgress, await_uploadMultipleImages;
  simpl.

Section Flow.

Variable parseFloat : jsstring -> Number.
Variable parseInt : jsstring -> Number.
Variable uploadMultipleImages : list jsstring -> UploadOutcome.
Variable insert_error : Payload -> option Error.
Variable issueId tenderId : option jsstring.

Local Abbreviation handleSubmit :=
  (handleSubmit parseFloat uploadMultipleImages insert_error issueId
     tenderId).
Local Abbreviation submit :=
  (submit parseFloat uploadMultipleImages insert_error issueId tenderId).
Local Abbreviation effects_of_submit :=
  (effects_of_submit parseFloat uploadMultipleImages insert_error issueId
     tenderId).
Local Abbreviation progressPayload := (progressPayload parseFloat issueId tenderId).
Local Abbreviation step :=
  (step parseFloat parseInt uploadMultipleImages insert_error issueId
     tenderId).
Local Abbreviation run :=
  (run parseFloat parseInt uploadMultipleImages insert_error issueId
     tenderId).

(** C5. A submission whose title or description is empty is rejected on
    the spot: the only effect is the error alert, no upload and no insert
    call is made, and no WorkProgress row is persisted. *)
Theorem empty_title_or_description_rejected (st : St) :
  title (progressData (comp st)) = []
  \/ description (progressData (comp st)) = [] ->
  submit st
  = mkSt (comp st) (work_progress st)
      (log st ++ [Alert_alert (js "Error")
                    (js "Please fill in title and description")])
  /\ work_progress (submit st) = work_progress st
  /\ (forall uris,
        ~ In (call_uploadMultipleImages uris) (effects_of_submit st))
  /\ (forall p, ~ In (call_submitWorkProgress p) (effects_of_submit st)).
Proof.
  intros H.
  assert (E : negb (ToBoolean_string (title (progressData (comp st))))
              || negb (ToBoolean_string
                         (description (progressData (comp st)))) = true).
  { destruct H as [-> | ->]; simpl; [reflexivity|apply orb_true_r]. }
  flow. rewrite E. simpl. split; [reflexivity|]. split; [reflexivity|].
  split.
  - intros uris [F|F]; [discriminate|exact F].
  - intros p [F|F]; [discriminate|exact F].
Qed.

(** C6. A valid submission with attached images, whose upload resolves
    with some successes and some failures and whose insert is accepted,
    persists exactly one WorkProgress row, through exactly one insert
    call, and the images of that row are exactly the URLs of the
    successful uploads. *)
Theorem partial_upload_persists_one_row (st : St) (r : UploadResult) :
  title (progressData (comp st)) <> [] ->
  description (progressData (comp st)) <> [] ->
  selectedImages (comp st) <> [] ->
  uploadMultipleImages (map uri (selectedImages (comp st)))
  = upload_resolves r ->
  insert_error
    (progressPayload (progressData (comp st)) (map url (successful r)))
  = None ->
  exists p,
    work_progress (submit st) = work_progress st ++ [p]
    /\ p_images p = map url (successful r)
    /\ effects_of_submit st
       = [call_uploadMultipleImages (map uri (selectedImages (comp st)));
          call_submitWorkProgress p;
          Alert_alert (js "Success")
            (js "Work progress has been submitted successfully")].
Proof.
  intros Ht Hd Hi Hu Hins.
  exists (progressPayload (progressData (comp st))
            (map url (successful r))).
  flow.
  rewrite (ToBoolean_string_true _ Ht), (ToBoolean_string_true _ Hd).
  simpl. rewrite (attached _ Hi), Hu. simpl.
  rewrite imageUrls_all. fold (progressPayload (progressData (comp st))
                                 (map url (successful r))).
  rewrite Hins. simpl. auto.
Qed.

(** C9. A valid submission that fails at the upload step or at the
    persist step reports the error, leaves every form field and the
    selected images as they were at submit time, and persists no
    WorkProgress row. *)
Theorem failed_submission_keeps_form (st : St) (e : Error) :
  title (progressData (comp st)) <> [] ->
  description (progressData (comp st)) <> [] ->
  upload_step_fails uploadMultipleImages st e
  \/ persist_step_fails parseFloat uploadMultipleImages insert_error
       issueId tenderId st e ->
  progressData (comp (submit st)) = progressData (comp st)
  /\ selectedImages (comp (submit st)) = selectedImages (comp st)
  /\ work_progress (submit st) = work_progress st
  /\ In (Alert_alert (js "Error")
           (js "Failed to submit progress: " ++ message e))
        (effects_of_submit st)
  /\ In (console_error (js "Error submitting progress:") e)
        (effects_of_submit st).
Proof.
  intros Ht Hd Hfail. flow.
  rewrite (ToBoolean_string_true _ Ht), (ToBoolean_string_true _ Hd).
  simpl.
  destruct Hfail as [[Hi Hu] | [urls [Hup Hins]]].
  - rewrite (attached _ Hi), Hu. simpl. intuition.
  - destruct Hup as [[Hi ->] | [Hi [r [Hu ->]]]].
    + rewrite Hi. simpl.
      fold (progressPayload (progressData (comp st)) []).
      rewrite Hins. simpl. intuition.
    + rewrite (attached _ Hi), Hu. simpl. rewrite imageUrls_all.
      fold (progressPayload (progressData (comp st))
              (map url (successful r))).
      rewrite Hins. simpl. intuition.
Qed.

(** Whatever its outcome, [handleSubmit] writes neither the form fields
    nor the selected images. *)
Lemma handleSubmit_keeps_form (pd : ProgressData) (imgs : list Asset)
    (st : St) :
  progressData (comp (snd (handleSubmit pd imgs st)))
  = progressData (comp st)
  /\ selectedImages (comp (snd (handleSubmit pd imgs st)))
     = selectedImages (comp st).
Proof.
  flow.
  destruct (negb (ToBoolean_string (title pd))
            || negb (ToBoolean_string (description pd))); simpl; auto.
  destruct (Nat.ltb 0 (List.length imgs)); simpl.
  - destruct (uploadMultipleImages (map uri imgs)); simpl; auto.
    destruct (insert_error _); simpl; auto.
  - destruct (insert_error _); simpl; auto.
Qed.

(** Every payload handed to [submitWorkProgress] is the payload built
    from the form data of the submitting render. *)
Lemma submitted_is_progressPayload (st : St) (p : Payload) :
  In (call_submitWorkProgress p) (effects_of_submit st) ->
  exists urls, p = progressPayload (progressData (comp st)) urls.
Proof.
  flow.
  destruct (negb (ToBoolean_string (title (progressData (comp st))))
            || negb (ToBoolean_string
                       (description (progressData (comp st))))); simpl.
  - intros [F|[]]. discriminate.
  - destruct (Nat.ltb 0 (List.length (selectedImages (comp st)))); simpl;
      [destruct (uploadMultipleImages _); simpl|];
      try destruct (insert_error _); simpl; intros H;
      repeat (destruct H as [H|H]);
      try discriminate; try contradiction;
      injection H as <-; eauto.
Qed.

Lemma step_tidy (st : St) (ev : Event) :
  materials_tidy st -> materials_tidy (step st ev).
Proof.
  unfold materials_tidy, Tracker.step. intros H.
  destruct ev; simpl; auto.
  - apply trimmed_entries_tidy.
  - destruct (loading (comp st)); simpl; auto.
    now rewrite (proj1 (handleSubmit_keeps_form _ _ st)).
Qed.

Lemma run_tidy (evs : list Event) : materials_tidy (run evs).
Proof.
  unfold Tracker.run.
  assert (H : materials_tidy initialState) by constructor.
  revert H. generalize initialState.
  induction evs as [|ev evs IH]; simpl; intros st H; auto.
  apply IH, step_tidy, H.
Qed.

(** C7. In every payload submitted from a state the form can reach, each
    entry of materials_used is trimmed and non-blank, and labor_hours
    and expenses_incurred are the numbers parsed from the form strings,
    zero standing in when the parse yields no number. *)
Theorem submitted_payload_normalised (evs : list Event) (p : Payload) :
  In (call_submitWorkProgress p) (effects_of_submit (run evs)) ->
  Forall tidy (p_materials_used p)
  /\ p_labor_hours p
     = match parseFloat (labor_hours (progressData (comp (run evs)))) with
       | NaN | Zero _ => Zero false
       | n => n
       end
  /\ p_expenses_incurred p
     = match parseFloat
               (expenses_incurred (progressData (comp (run evs)))) with
       | NaN | Zero _ => Zero false
       | n => n
       end.
Proof.
  intros H. apply submitted_is_progressPayload in H.
  destruct H as [urls ->]. simpl.
  rewrite (filter_tidy _ (run_tidy evs)).
  split; [apply run_tidy|].
  unfold or_number.
  split; match goal with |- context [parseFloat ?s] =>
                           now destruct (parseFloat s) end.
Qed.

End Flow.

Lemma empty_title_or_description_rejected_witness :
  title (progressData (comp Samples.untitled)) = []
  /\ work_progress
       (submit Samples.parse_digits Samples.upload_all_but_b
          Samples.accept_all None None Samples.untitled) = [].
Proof.
  split; [reflexivity|].
  apply (empty_title_or_description_rejected Samples.parse_digits
           Samples.upload_all_but_b Samples.accept_all None None
           Samples.untitled).
  left. reflexivity.
Defined.

Lemma partial_upload_persists_one_row_witness :
  exists p,
    work_progress
      (submit Samples.parse_digits Samples.upload_all_but_b
         Samples.accept_all None None Samples.ready) = [p]
    /\ p_images p = [js "https://cdn/a.jpg"].
Proof.
  destruct (partial_upload_persists_one_row Samples.parse_digits
              Samples.upload_all_but_b Samples.accept_all None None
              Samples.ready _
              ltac:(discriminate) ltac:(discriminate) ltac:(discriminate)
              eq_refl eq_refl)
    as [p [H1 [H2 _]]].
  exists p. split; [exact H1|exact H2].
Defined.

Lemma failed_submission_keeps_form_witness :
  upload_step_fails Samples.upload_down Samples.ready
    (mkError (js "Network request failed"))
  /\ progressData
       (comp (submit Samples.parse_digits Samples.upload_down
                Samples.accept_all None None Samples.ready))
     = Samples.filled_form
  /\ work_progress
       (submit Samples.parse_digits Samples.upload_down
          Samples.accept_all None None Samples.ready) = [].
Proof.
  assert (H : upload_step_fails Samples.upload_down Samples.ready
                (mkError (js "Network request failed"))).
  { split; [discriminate|reflexivity]. }
  split; [exact H|].
  destruct (failed_submission_keeps_form Samples.parse_digits
              Samples.upload_down Samples.accept_all None None
              Samples.ready _
              ltac:(discriminate) ltac:(discriminate) (or_introl H))
    as [H1 [_ [H2 _]]].
  split; [exact H1|exact H2].
Defined.

Lemma submitted_payload_normalised_witness :
  exists p,
    In (call_submitWorkProgress p)
       (effects_of_submit Samples.parse_digits Samples.upload_all_but_b
          Samples.accept_all None None
          (run Samples.parse_digits Samples.parse_digits
             Samples.upload_all_but_b Samples.accept_all None None
             Samples.filling))
    /\ Forall tidy (p_materials_used p)
    /\ p_materials_used p = [js "asphalt"; js "gravel"]
    /\ p_labor_hours p = Finite false 8 0
    /\ p_expenses_incurred p = Zero false.
Proof.
  eexists.
  assert (Hin : In (call_submitWorkProgress
                      (progressPayload Samples.parse_digits None None
                         Samples.filled_form [js "https://cdn/a.jpg"]))
                   (effects_of_submit Samples.parse_digits
                      Samples.upload_all_but_b Samples.accept_all None None
                      (run Samples.parse_digits Samples.parse_digits
                         Samples.upload_all_but_b Samples.accept_all None
                         None Samples.filling))).
  { right. left. reflexivity. }
  destruct (submitted_payload_normalised Samples.parse_digits
              Samples.parse_digits Samples.upload_all_but_b
              Samples.accept_all None None Samples.filling _ Hin)
    as [Hm [Hl He]].
  split; [exact Hin|]. split; [exact Hm|]. split; [reflexivity|].
  split; [exact Hl|exact He].
Defined.

End TrackerFacts.

(** ** Further properties of the trigger engine *)

Module TriggerExtras.

Import Triggers TriggerViews.

Local Open Scope Z_scope.

(** *** What the counter trigger leaves alone *)

Lemma update_where_compose {A : Type} (c : A -> bool) (f g : A -> A)
    (rows : list A) :
  (forall r, c r = true -> c (f r) = true) ->
  update_where c g (update_where c f rows)
  = update_where c (fun r => g (f r)) rows.
Proof.
  intros Hc. unfold update_where. rewrite map_map. apply map_ext.
  intros r. destruct (c r) eqn:E.
  - now rewrite (Hc r E).
  - now rewrite E.
Qed.

Lemma update_where_fixed {A : Type} (c : A -> bool) (f : A -> A)
    (P : A -> Prop) (rows : list A) :
  Forall P rows ->
  (forall r, P r -> c r = true -> f r = r) ->
  update_where c f rows = rows.
Proof.
  intros HP Hf. unfold update_where.
  induction HP as [|r rows Hr _ IH]; simpl; [reflexivity|].
  rewrite IH. destruct (c r) eqn:E; [now rewrite (Hf r Hr E)|reflexivity].
Qed.

Lemma counts_only_without_counts (k : option uuid) (u d : Issue -> Z)
    (rows : list Issue) :
  map without_counts
    (update_where (addresses k) (fun i => set_counts (u i) (d i) i) rows)
  = map without_counts rows.
Proof.
  unfold update_where. rewrite map_map. apply map_ext.
  intros i. now destruct (addresses k i).
Qed.

Lemma counts_only_elsewhere (k : option uuid) (u d : Issue -> Z)
    (rows : list Issue) :
  filter (fun i => negb (addresses k i))
    (update_where (addresses k) (fun i => set_counts (u i) (d i) i) rows)
  = filter (fun i => negb (addresses k i)) rows.
Proof.
  unfold update_where.
  induction rows as [|i rows IH]; simpl; [reflexivity|].
  destruct (addresses k i) eqn:E; simpl.
  - change (addresses k (set_counts (u i) (d i) i)) with (addresses k i).
    rewrite E. simpl. exact IH.
  - rewrite E. simpl. now rewrite IH.
Qed.

Ltac vote_cases :=
  unfold execute, vote_inserted, vote_deleted, vote_updated,
    update_issue_counts, field;
  simpl;
  repeat match goal with
         | |- context [if holds ?c then _ else _] => destruct (holds c)
         end.

(** X1. A firing of the counter trigger writes nothing but the upvote and
    downvote counters of the issue the statement addresses: the other
    tables, the number and order of the issues, every other column, and
    every issue with another id stay as they were. *)
Theorem vote_statement_frame (db : Db) (s : VoteStatement) :
  areas (execute db s) = areas db
  /\ profiles (execute db s) = profiles db
  /\ issue_assignments (execute db s) = issue_assignments db
  /\ map without_counts (issues (execute db s))
     = map without_counts (issues db)
  /\ filter (fun i => negb (addresses (target s) i)) (issues (execute db s))
     = filter (fun i => negb (addresses (target s) i)) (issues db).
Proof.
  destruct s as [v|v|old new]; vote_cases;
    repeat split; try reflexivity;
    first [ apply counts_only_without_counts
          | apply (counts_only_elsewhere _ _ _ (issues db)) ].
Qed.

Lemma execute_without_counts (db : Db) (s : VoteStatement) :
  map without_counts (issues (execute db s)) = map without_counts (issues db).
Proof.
  destruct s as [v|v|old new]; vote_cases; try reflexivity;
    apply counts_only_without_counts.
Qed.

(** X2. Over any sequence of vote statements, in any order, the upvote and
    downvote counters of every issue stay non-negative, the counters being
    non-negative to begin with, and nothing but the counters of the issues
    ever changes. *)
Theorem vote_history_keeps_counts_nonneg (ss : list VoteStatement)
    (db : Db) :
  counts_nonneg db ->
  counts_nonneg (fold_left execute ss db)
  /\ map without_counts (issues (fold_left execute ss db))
     = map without_counts (issues db).
Proof.
  revert db. induction ss as [|s ss IH]; simpl; intros db H; [auto|].
  destruct (IH (execute db s)) as [Hn Hw].
  - destruct s; apply TriggerFacts.update_issue_counts_nonneg; exact H.
  - split; [exact Hn|]. rewrite Hw. apply execute_without_counts.
Qed.

Lemma vote_history_keeps_counts_nonneg_witness :
  counts_nonneg Samples.db0
  /\ counts_nonneg
       (fold_left execute
          [DeleteVote Samples.upvote_on_pothole;
           DeleteVote Samples.upvote_on_pothole;
           DeleteVote Samples.upvote_on_pothole;
           InsertVote Samples.upvote_on_pothole]
          Samples.db0).
Proof.
  assert (H : counts_nonneg Samples.db0).
  { repeat constructor; simpl; lia. }
  split; [exact H|].
  exact (proj1 (vote_history_keeps_counts_nonneg _ Samples.db0 H)).
Defined.

(** *** Votes that change type *)

Lemma update_issues_by_id_compose (db : Db) (k : option uuid)
    (f g : Issue -> Issue) :
  (forall i, issue_id (f i) = issue_id i) ->
  update_issues_by_id (update_issues_by_id db k f) k g
  = update_issues_by_id db k (fun i => g (f i)).
Proof.
  intros Hid. unfold update_issues_by_id. simpl.
  rewrite update_where_compose; [reflexivity|].
  intros i. now rewrite Hid.
Qed.

Lemma update_issues_by_id_fixed (db : Db) (k : option uuid)
    (f : Issue -> Issue) (P : Issue -> Prop) :
  Forall P (issues db) ->
  (forall i, P i -> addresses k i = true -> f i = i) ->
  update_issues_by_id db k f = db.
Proof.
  intros HP Hf. unfold update_issues_by_id.
  rewrite (update_where_fixed _ f P); auto.
  now destruct db.
Qed.

Lemma vote_kind_cases (t : option string) :
  is_vote_kind t = true -> t = Some "upvote" \/ t = Some "downvote".
Proof.
  unfold is_vote_kind. destruct t as [s|]; simpl; [|discriminate].
  destruct (String.eqb_spec s "upvote") as [->|]; [now left|].
  destruct (String.eqb_spec s "downvote") as [->|]; [now right|discriminate].
Qed.

Ltac restore_counts :=
  intros [id a w s aa ca u d t]; unfold nonneg_counts, set_counts, GREATEST;
  simpl; intros; f_equal; lia.

(** X3. A vote that is inserted, changes between upvote and downvote (or
    is re-saved with its type) and is then deleted, all on the same issue,
    leaves the database as it was before the insert, the counters being
    non-negative to begin with. *)
Theorem vote_lifecycle_restores (db : Db) (v v' : Vote) :
  counts_nonneg db ->
  is_vote_kind (vote_type v) = true ->
  is_vote_kind (vote_type v') = true ->
  vote_issue_id v' = vote_issue_id v ->
  vote_deleted v' (vote_updated v v' (vote_inserted v db)) = db.
Proof.
  intros H Hv Hv' Hid.
  unfold vote_deleted, vote_updated, vote_inserted, update_issue_counts,
    field. simpl. rewrite Hid.
  destruct (vote_kind_cases _ Hv) as [-> | ->];
    destruct (vote_kind_cases _ Hv') as [-> | ->]; simpl;
    repeat (rewrite update_issues_by_id_compose by reflexivity);
    apply (update_issues_by_id_fixed db _ _ nonneg_counts H);
    restore_counts.
Qed.

Lemma vote_lifecycle_restores_witness :
  counts_nonneg Samples.db0
  /\ vote_deleted (mkVote (Some 10%N) (Some "downvote"))
       (vote_updated Samples.upvote_on_pothole
          (mkVote (Some 10%N) (Some "downvote"))
          (vote_inserted Samples.upvote_on_pothole Samples.db0))
     = Samples.db0.
Proof.
  assert (H : counts_nonneg Samples.db0).
  { repeat constructor; simpl; lia. }
  split; [exact H|].
  apply (vote_lifecycle_restores Samples.db0 Samples.upvote_on_pothole
           (mkVote (Some 10%N) (Some "downvote")) H);
    reflexivity.
Defined.

(** X4. Changing a vote's type and changing it back restores the database
    when the vote was counted, that is when the counter of its old type is
    at least one on the issue addressed; the counters are non-negative to
    begin with. *)
Theorem vote_flip_and_back_restores (db : Db) (old new : Vote) :
  counts_nonneg db ->
  is_vote_kind (vote_type old) = true ->
  is_vote_kind (vote_type new) = true ->
  vote_issue_id old = vote_issue_id new ->
  Forall (fun i => addresses (vote_issue_id new) i = true ->
                   1 <= counter (vote_type old) i) (issues db) ->
  vote_updated new old (vote_updated old new db) = db.
Proof.
  intros H Hold Hnew Hid Hpos.
  assert (HP : Forall (fun i => nonneg_counts i
                                /\ (addresses (vote_issue_id new) i = true ->
                                    1 <= counter (vote_type old) i))
                 (issues db)).
  { unfold counts_nonneg in H. rewrite Forall_forall in *.
    intros i Hi. split; auto. }
  clear H Hpos. revert HP.
  unfold vote_updated, update_issue_counts, field. simpl. rewrite Hid.
  destruct (vote_kind_cases _ Hold) as [-> | ->];
    destruct (vote_kind_cases _ Hnew) as [-> | ->]; simpl; intros HP;
    try reflexivity;
    rewrite update_issues_by_id_compose by reflexivity;
    apply (update_issues_by_id_fixed db _ _ _ HP);
    intros [id a w s aa ca u d t] [[Hu Hd] Hc] Ha;
    specialize (Hc Ha); unfold counter in Hc; simpl in *;
    unfold set_counts, GREATEST; simpl; f_equal; lia.
Qed.

Lemma vote_flip_and_back_restores_witness :
  vote_updated (mkVote (Some 10%N) (Some "downvote"))
    Samples.upvote_on_pothole
    (vote_updated Samples.upvote_on_pothole
       (mkVote (Some 10%N) (Some "downvote")) Samples.db0)
  = Samples.db0.
Proof.
  apply (vote_flip_and_back_restores Samples.db0 Samples.upvote_on_pothole
           (mkVote (Some 10%N) (Some "downvote"))).
  - repeat constructor; simpl; lia.
  - reflexivity.
  - reflexivity.
  - reflexivity.
  - repeat constructor. simpl. intros _. unfold counter. simpl. lia.
Defined.

Lemma vote_inserted_up (db : Db) (v : Vote) :
  vote_type v = Some "upvote" ->
  vote_inserted v db
  = update_issues_by_id db (vote_issue_id v)
      (fun i => set_counts (upvotes i + 1) (downvotes i) i).
Proof.
  intros H. unfold vote_inserted, update_issue_counts, field.
  now rewrite H.
Qed.

Lemma vote_inserted_down (db : Db) (v : Vote) :
  vote_type v = Some "downvote" ->
  vote_inserted v db
  = update_issues_by_id db (vote_issue_id v)
      (fun i => set_counts (upvotes i) (downvotes i + 1) i).
Proof.
  intros H. unfold vote_inserted, update_issue_counts, field.
  now rewrite H.
Qed.

(** X5. At the floor the counter trigger forgets: deleting a vote whose
    counter is already zero on the issue changes nothing, so a delete
    followed by an insert of the same vote raises that counter by one. *)
Theorem vote_delete_at_zero_then_insert (db : Db) (v : Vote) :
  is_vote_kind (vote_type v) = true ->
  Forall (fun i => nonneg_counts i
                   /\ (addresses (vote_issue_id v) i = true ->
                       counter (vote_type v) i = 0)) (issues db) ->
  vote_deleted v db = db
  /\ map (fun i => (issue_id i, counter (vote_type v) i))
       (issues (vote_inserted v (vote_deleted v db)))
     = map (fun i => (issue_id i,
                      if addresses (vote_issue_id v) i then 1
                      else counter (vote_type v) i))
         (issues db).
Proof.
  intros Hv HP.
  assert (E : vote_deleted v db = db).
  { unfold vote_deleted, update_issue_counts, field. simpl.
    destruct (vote_kind_cases _ Hv) as [Ht | Ht]; rewrite Ht in *; simpl;
      apply (update_issues_by_id_fixed db _ _ _ HP);
      intros [id a w s aa ca u d t] [[Hu Hd] Hc] Ha;
      specialize (Hc Ha); unfold counter in Hc; simpl in *;
      unfold set_counts, GREATEST; simpl; f_equal; lia. }
  split; [exact E|]. rewrite E.
  rewrite Forall_forall in HP.
  destruct (vote_kind_cases _ Hv) as [Ht | Ht];
    [rewrite (vote_inserted_up db v Ht) | rewrite (vote_inserted_down db v Ht)];
    unfold update_issues_by_id, update_where; cbn [issues with_issues];
    rewrite map_map; apply map_ext_in; intros i Hi; cbv beta;
    change (holds (uuid_eq (Some (issue_id i)) (vote_issue_id v)))
      with (addresses (vote_issue_id v) i);
    destruct (HP i Hi) as [_ Hc];
    destruct (addresses (vote_issue_id v) i);
    rewrite Ht in *; unfold counter in *; simpl in *;
    try rewrite (Hc eq_refl); reflexivity.
Qed.

Lemma vote_delete_at_zero_then_insert_witness :
  vote_deleted MoreSamples.upvote_on_unvoted MoreSamples.quiet_db
  = MoreSamples.quiet_db
  /\ map upvotes
       (issues (vote_inserted MoreSamples.upvote_on_unvoted
                  (vote_deleted MoreSamples.upvote_on_unvoted
                     MoreSamples.quiet_db)))
     = [1].
Proof.
  assert (HP : Forall (fun i => nonneg_counts i
                      /\ (addresses (Some 12%N) i = true ->
                          counter (Some "upvote") i = 0))
                 (issues MoreSamples.quiet_db)).
  { constructor; [|constructor]. split; [split; simpl; lia|].
    intros _. reflexivity. }
  destruct (vote_delete_at_zero_then_insert MoreSamples.quiet_db
              MoreSamples.upvote_on_unvoted eq_refl HP) as [H _].
  split; [exact H|reflexivity].
Defined.

End TriggerExtras.

(** ** Further properties of tender awards and issue creation *)

Module WorkflowExtras.

Import Triggers TriggerViews Policies.

(** X6. Awarding a tender that has no source issue aborts the update: the
    assignment row would carry a NULL issue_id, which the table refuses. *)
Theorem award_without_source_issue_fails (db : Db) (auth_uid : option uuid)
    (now : N) (OLD NEW : Tender) (s : string) :
  tender_status OLD = Some s -> s <> "awarded" ->
  tender_status NEW = Some "awarded" ->
  source_issue_id NEW = None ->
  exists e, handle_tender_award db auth_uid now OLD NEW = Raise e.
Proof.
  intros Hold Hs Hnew Hsrc. unfold handle_tender_award.
  rewrite (TriggerFacts.award_condition OLD NEW s Hold Hs Hnew), Hsrc.
  unfold insert_issue_assignment.
  destruct (can_create_assignment _ _ _); simpl; eauto.
Qed.

Lemma award_without_source_issue_fails_witness :
  exists e,
    handle_tender_award Samples.db0 (Some 20%N) 7%N
      MoreSamples.orphan_tender_open MoreSamples.orphan_tender_awarded
    = Raise e.
Proof.
  apply (award_without_source_issue_fails Samples.db0 (Some 20%N) 7%N
           MoreSamples.orphan_tender_open MoreSamples.orphan_tender_awarded
           "open");
    [reflexivity|discriminate|reflexivity|reflexivity].
Defined.



(** X8. A tender update from a status other than 'awarded' to 'awarded'
    goes through whenever the tender has a source issue that is in the
    table, the caller's profile carries one of the roles admin,
    area_super_admin, department_admin, and the awarded contractor, if
    any, has a profile. *)
Theorem award_goes_through (db : Db) (u iid : uuid) (now : N)
    (OLD NEW : Tender) (s : string) :
  tender_status OLD = Some s -> s <> "awarded" ->
  tender_status NEW = Some "awarded" ->
  source_issue_id NEW = Some iid ->
  references_issue db (Some iid) = true ->
  has_role db (Some u) privileged_roles = true ->
  references_profile db (awarded_to NEW) = true ->
  exists db', handle_tender_award db (Some u) now OLD NEW = Ok db'.
Proof.
  intros Hold Hs Hnew Hsrc Hfk Hrole Haw.
  apply (TriggerFacts.tender_award_succeeds db u iid now OLD NEW s);
    auto.
  unfold can_create_assignment. simpl. rewrite N.eqb_refl. simpl.
  exact Hrole.
Qed.

Lemma award_goes_through_witness :
  exists db',
    handle_tender_award Samples.db0 (Some 20%N) 7%N Samples.tender_open
      Samples.tender_awarded = Ok db'.
Proof.
  apply (award_goes_through Samples.db0 20%N 10%N 7%N
           Samples.tender_open Samples.tender_awarded "open");
    [reflexivity|discriminate|reflexivity|reflexivity|reflexivity
    |reflexivity|reflexivity].
Defined.

Lemma award_only_elsewhere (k : option uuid) (a : option uuid) (now : N)
    (rows : list Issue) :
  filter (fun i => negb (addresses k i))
    (update_where (addresses k) (award_issue a now) rows)
  = filter (fun i => negb (addresses k i)) rows.
Proof.
  unfold update_where.
  induction rows as [|i rows IH]; simpl; [reflexivity|].
  destruct (addresses k i) eqn:E; simpl.
  - change (addresses k (award_issue a now i)) with (addresses k i).
    rewrite E. simpl. exact IH.
  - rewrite E. simpl. now rewrite IH.
Qed.

(** X9. Whatever a tender update is, when the award trigger lets it through
    the areas and profiles are untouched, the assignment rows already
    there are kept in place, every issue other than the tender's source
    issue is unchanged, and no issue changes its id, area, assigned area or
    vote counters. *)
Theorem award_frame (db db' : Db) (auth_uid : option uuid) (now : N)
    (OLD NEW : Tender) :
  handle_tender_award db auth_uid now OLD NEW = Ok db' ->
  areas db' = areas db
  /\ profiles db' = profiles db
  /\ firstn (List.length (issue_assignments db)) (issue_assignments db')
     = issue_assignments db
  /\ map award_untouched (issues db') = map award_untouched (issues db)
  /\ filter (fun i => negb (addresses (source_issue_id NEW) i)) (issues db')
     = filter (fun i => negb (addresses (source_issue_id NEW) i)) (issues db).
Proof.
  unfold handle_tender_award.
  destruct (holds _).
  - intros H. apply TriggerFacts.insert_issue_assignment_Ok in H.
    destruct H as [-> _]. simpl.
    repeat split.
    + rewrite firstn_app, firstn_all, Nat.sub_diag. simpl.
      apply app_nil_r.
    + unfold update_where. rewrite map_map. apply map_ext.
      intros i. now destruct (holds _).
    + apply (award_only_elsewhere (source_issue_id NEW)).
  - intros H. injection H as <-. repeat split. apply firstn_all.
Qed.

Lemma award_frame_witness :
  exists db',
    handle_tender_award Samples.db0 (Some 20%N) 7%N Samples.tender_open
      Samples.tender_awarded = Ok db'
    /\ profiles db' = profiles Samples.db0
    /\ map award_untouched (issues db')
       = map award_untouched (issues Samples.db0).
Proof.
  eexists. split; [reflexivity|].
  destruct (award_frame Samples.db0 _ (Some 20%N) 7%N Samples.tender_open
              Samples.tender_awarded eq_refl) as [_ [H1 [_ [H2 _]]]].
  split; [exact H1|exact H2].
Defined.

(** X10. The award trigger changes the database only on a transition into
    'awarded': if a tender update went through and the database is not what
    it was, the new status is 'awarded' and the old status was a value
    other than 'awarded'. Revoking an award, in particular, reverts
    nothing. *)
Theorem award_changes_only_on_transition (db db' : Db)
    (auth_uid : option uuid) (now : N) (OLD NEW : Tender) :
  handle_tender_award db auth_uid now OLD NEW = Ok db' ->
  db' <> db ->
  tender_status NEW = Some "awarded"
  /\ exists s, tender_status OLD = Some s /\ s <> "awarded".
Proof.
  unfold handle_tender_award. intros H Hne.
  destruct (tender_status NEW) as [n|]; simpl in H.
  - destruct (tender_status OLD) as [o|]; simpl in H.
    + destruct (String.eqb_spec n "awarded") as [En|En];
        destruct (String.eqb_spec o "awarded") as [Eo|Eo]; simpl in H;
        try (injection H as <-; contradiction).
      subst n. split; [reflexivity|]. eauto.
    + destruct (String.eqb n "awarded"); simpl in H;
        injection H as <-; contradiction.
  - destruct (tender_status OLD) as [o|]; simpl in H;
      [destruct (negb (String.eqb o "awarded")); simpl in H|];
      injection H as <-; contradiction.
Qed.

Lemma award_changes_only_on_transition_witness :
  exists db',
    handle_tender_award Samples.db0 (Some 20%N) 7%N Samples.tender_open
      Samples.tender_awarded = Ok db'
    /\ db' <> Samples.db0
    /\ tender_status Samples.tender_awarded = Some "awarded".
Proof.
  eexists. split; [reflexivity|].
  assert (Hne : forall (r : IssueAssignment) (l : list Issue),
            mkDb (areas Samples.db0) (profiles Samples.db0) l [r]
            <> Samples.db0) by (intros r l H; discriminate H).
  split; [apply Hne|].
  exact (proj1 (award_changes_only_on_transition Samples.db0 _ (Some 20%N) 7%N
                  Samples.tender_open Samples.tender_awarded eq_refl
                  (Hne _ _))).
Defined.

(** *** Issue creation *)

Lemma insert_issue_eq (db : Db) (NEW : Issue) :
  insert_issue db NEW
  = if existsb (fun i => N.eqb (issue_id i) (issue_id NEW)) (issues db)
    then Raise (unique_violation "issues_pkey")
    else Ok (with_issues db
               (issues db ++ [set_workflow_stage NEW (Some "area_review")])).
Proof.
  unfold insert_issue, auto_assign_issue_to_area. simpl.
  destruct (area NEW) as [a|]; simpl; [|reflexivity].
  rewrite TriggerFacts.existsb_id_update_where by reflexivity.
  destruct (existsb _ (issues db)) eqn:E; [reflexivity|].
  rewrite TriggerFacts.update_where_none; [reflexivity|].
  rewrite <- E. apply TriggerFacts.existsb_pointwise. intros i. simpl.
  now destruct (N.eqb (issue_id i) (issue_id NEW)).
Qed.

Lemma NoDup_snoc {A : Type} (l : list A) (x : A) :
  NoDup l -> ~ In x l -> NoDup (l ++ [x]).
Proof.
  induction 1 as [|y l Hy _ IH]; simpl; intros Hx.
  - constructor; [intros []|constructor].
  - constructor.
    + rewrite in_app_iff. simpl. intros [H|[H|[]]]; [contradiction|].
      subst. apply Hx. now left.
    + apply IH. intros H. apply Hx. now right.
Qed.


Lemma update_where_ids (c : Issue -> bool) (f : Issue -> Issue)
    (rows : list Issue) :
  (forall i, issue_id (f i) = issue_id i) ->
  map issue_id (update_where c f rows) = map issue_id rows.
Proof.
  intros H. unfold update_where. rewrite map_map. apply map_ext.
  intros i. destruct (c i); [apply H|reflexivity].
Qed.

Lemma execute_ids (db : Db) (s : VoteStatement) :
  map issue_id (issues (execute db s)) = map issue_id (issues db).
Proof.
  destruct s as [v|v|old new];
    unfold execute, vote_inserted, vote_deleted, vote_updated,
      update_issue_counts, field; simpl;
    repeat match goal with
           | |- context [if holds ?c then _ else _] => destruct (holds c)
           end;
    try reflexivity; apply update_where_ids; reflexivity.
Qed.

(** X12. The primary key of issues is an invariant of the workflow: when no
    two issues share an id, none do after a successful insert of an issue,
    after any vote statement, or after a tender update the award trigger
    lets through. *)
Theorem unique_issue_ids_preserved (db : Db) :
  unique_issue_ids db ->
  (forall NEW db', insert_issue db NEW = Ok db' -> unique_issue_ids db')
  /\ (forall s, unique_issue_ids (execute db s))
  /\ (forall auth_uid now OLD NEW db',
        handle_tender_award db auth_uid now OLD NEW = Ok db' ->
        unique_issue_ids db').
Proof.
  unfold unique_issue_ids. intros H. split; [|split].
  - intros NEW db' E. rewrite insert_issue_eq in E.
    destruct (existsb _ (issues db)) eqn:Ex; [discriminate|].
    injection E as <-. simpl. rewrite map_app. simpl.
    apply NoDup_snoc; [exact H|].
    intros Hin. apply in_map_iff in Hin. destruct Hin as [i [Hid Hi]].
    assert (T : existsb (fun i => N.eqb (issue_id i) (issue_id NEW))
                  (issues db) = true).
    { apply existsb_exists. exists i. split; [exact Hi|].
      now apply N.eqb_eq. }
    rewrite T in Ex. discriminate.
  - intros s. now rewrite execute_ids.
  - intros auth_uid now OLD NEW db'. unfold handle_tender_award.
    destruct (holds _).
    + intros E. apply TriggerFacts.insert_issue_assignment_Ok in E.
      destruct E as [-> _]. simpl.
      now rewrite update_where_ids by reflexivity.
    + intros E. now injection E as <-.
Qed.

Lemma unique_issue_ids_preserved_witness :
  unique_issue_ids Samples.db0
  /\ unique_issue_ids
       (execute Samples.db0 (InsertVote Samples.upvote_on_pothole)).
Proof.
  assert (H : unique_issue_ids Samples.db0).
  { unfold unique_issue_ids. simpl. constructor; [intros []|constructor]. }
  split; [exact H|].
  apply (proj1 (proj2 (unique_issue_ids_preserved Samples.db0 H))).
Defined.

(** *** The lookups of the insert trigger *)

Lemma active_area_match (n : option string) (a : Area) :
  holds (and3 (text_eq (Some (area_name a)) n)
              (bool_eq (area_is_active a) (Some true))) = true
  <-> n = Some (area_name a) /\ area_is_active a = Some true.
Proof.
  destruct n as [s|]; destruct (area_is_active a) as [[|]|]; simpl;
    try (split; [discriminate|intros [? ?]; discriminate]).
  - destruct (String.eqb_spec (area_name a) s) as [->|Hne]; simpl.
    + split; auto.
    + split; [discriminate|]. intros [E _]. injection E as E. congruence.
  - destruct (String.eqb (area_name a) s); simpl;
      (split; [discriminate|intros [_ ?]; discriminate]).
  - destruct (String.eqb (area_name a) s); simpl;
      (split; [discriminate|intros [_ ?]; discriminate]).
Qed.

(** X13. The area lookup of the insert trigger answers with the id of an
    area of the given name whose is_active is true, and answers NULL only
    when the table holds no such area; a NULL name or a deactivated area
    never matches. *)
Theorem select_active_area_spec (db : Db) (n : option string) :
  (forall k, select_active_area db n = Some k ->
     exists a, In a (areas db) /\ area_id a = k
               /\ n = Some (area_name a) /\ area_is_active a = Some true)
  /\ (select_active_area db n = None ->
      forall a, In a (areas db) ->
        ~ (n = Some (area_name a) /\ area_is_active a = Some true)).
Proof.
  unfold select_active_area. split.
  - intros k H. destruct (find _ (areas db)) as [a|] eqn:F; [|discriminate].
    injection H as <-. apply find_some in F. destruct F as [Hin Hm].
    apply active_area_match in Hm. exists a. tauto.
  - intros H a Hin Hm.
    destruct (find _ (areas db)) as [x|] eqn:F; [discriminate|].
    apply (find_none _ _ F) in Hin. apply active_area_match in Hm.
    rewrite Hm in Hin. discriminate.
Qed.

Lemma holds_and3 (p q : tri) :
  holds (and3 p q) = true <-> holds p = true /\ holds q = true.
Proof.
  destruct p as [[|]|]; destruct q as [[|]|]; simpl; intuition discriminate.
Qed.

Lemma holds_text_eq (x y : option string) :
  holds (text_eq x y) = true <-> exists s, x = Some s /\ y = Some s.
Proof.
  destruct x as [a|]; destruct y as [b|]; simpl;
    try (split; [discriminate|intros [s [? ?]]; discriminate]).
  destruct (String.eqb_spec a b) as [->|Hne]; split; eauto;
    try discriminate.
  intros [s [E1 E2]]. congruence.
Qed.

Lemma holds_uuid_eq (x y : option uuid) :
  holds (uuid_eq x y) = true <-> exists k, x = Some k /\ y = Some k.
Proof.
  destruct x as [a|]; destruct y as [b|]; simpl;
    try (split; [discriminate|intros [s [? ?]]; discriminate]).
  destruct (N.eqb_spec a b) as [->|Hne]; split; eauto; try discriminate.
  intros [s [E1 E2]]. congruence.
Qed.

Lemma holds_bool_eq_true (x : option bool) :
  holds (bool_eq x (Some true)) = true <-> x = Some true.
Proof.
  destruct x as [[|]|]; simpl; split; congruence.
Qed.

Lemma existsb_map {A B : Type} (f : B -> bool) (g : A -> B) (l : list A) :
  existsb f (map g l) = existsb (fun a => f (g a)) l.
Proof.
  induction l as [|a l IH]; simpl; [reflexivity|]. now rewrite IH.
Qed.

Lemma find_pointwise {A : Type} (f g : A -> bool) (l : list A) :
  (forall x, f x = g x) -> find f l = find g l.
Proof.
  intros H. induction l as [|a l IH]; simpl; [reflexivity|].
  now rewrite H, IH.
Qed.

(** X14. The admin lookup of the insert trigger answers only with the id of
    a verified profile of type 'area_super_admin' that is bound to an area
    of the given name; whether that area is active plays no part in it. *)
Theorem select_area_admin_spec (db : Db) (n : option string) :
  (forall k, select_area_admin db n = Some k ->
     exists p a,
       In p (profiles db) /\ In a (areas db) /\ profile_id p = k
       /\ user_type p = Some "area_super_admin"
       /\ is_verified p = Some true
       /\ profile_assigned_area_id p = Some (area_id a)
       /\ n = Some (area_name a))
  /\ (forall b,
        select_area_admin (with_area_activity b db) n
        = select_area_admin db n).
Proof.
  split.
  - unfold select_area_admin. intros k H.
    destruct (find _ (profiles db)) as [p|] eqn:F; [|discriminate].
    injection H as <-. apply find_some in F. destruct F as [Hp Hm].
    apply existsb_exists in Hm. destruct Hm as [a [Ha Hc]].
    apply andb_true_iff in Hc. destruct Hc as [Hb Hc].
    apply holds_uuid_eq in Hb. destruct Hb as [x [Hb1 Hb2]].
    injection Hb2 as <-.
    apply holds_and3 in Hc. destruct Hc as [Hn Hc].
    apply holds_and3 in Hc. destruct Hc as [Ht Hv].
    apply holds_text_eq in Hn. destruct Hn as [s [Hs ->]].
    injection Hs as <-.
    apply holds_text_eq in Ht. destruct Ht as [t [Ht1 Ht2]].
    injection Ht2 as <-.
    apply holds_bool_eq_true in Hv.
    exists p, a. repeat split; auto.
  - intros b. unfold select_area_admin, with_area_activity. simpl.
    f_equal. apply find_pointwise. intros p. now rewrite existsb_map.
Qed.

End WorkflowExtras.

(** ** Properties of the row-level policies *)

Module PolicyFacts.

Import Triggers Policies.

Lemma has_role_anonymous (db : Db) (roles : list string) :
  has_role db None roles = false.
Proof.
  unfold has_role. induction (profiles db) as [|p l IH]; [reflexivity|].
  cbn [existsb]. rewrite IH.
  destruct (text_in (user_type p) roles) as [[|]|]; reflexivity.
Qed.

Lemma is_admin_anonymous (db : Db) : is_admin db None = false.
Proof.
  unfold is_admin. induction (profiles db) as [|p l IH]; [reflexivity|].
  cbn [existsb]. rewrite IH.
  destruct (text_eq (user_type p) (Some "admin")) as [[|]|]; reflexivity.
Qed.

(** X15. Whoever the insert policy of issue_assignments lets create a row
    is let read that row back by the select policy. *)
Theorem creator_can_read_assignment (db : Db) (auth_uid : option uuid)
    (r : IssueAssignment) :
  can_create_assignment db auth_uid r = true ->
  can_read_assignment db auth_uid r = true.
Proof.
  unfold can_create_assignment, can_read_assignment. intros H.
  apply andb_true_iff in H. destruct H as [_ H].
  change (has_role db auth_uid privileged_roles = true) in H. rewrite H.
  destruct (uuid_eq (assigned_by r) auth_uid) as [[|]|];
    destruct (uuid_eq (assigned_to r) auth_uid) as [[|]|]; reflexivity.
Qed.

Lemma creator_can_read_assignment_witness :
  can_read_assignment Samples.db0 (Some 20%N)
    (mkIssueAssignment (Some 10%N) (Some 20%N) (Some 30%N) None None
       (Some "department_to_contractor") None (Some "active") 7%N 7%N)
  = true.
Proof.
  apply (creator_can_read_assignment Samples.db0 (Some 20%N)).
  reflexivity.
Defined.

(** X16. When auth.uid() is NULL, the policy expressions of
    issue_assignments (read and insert), work_progress and
    tender_evaluations hold for no row, the admin policy of areas does not
    hold, and the only areas for which a policy expression holds are the
    active ones. *)
Theorem anonymous_passes_no_policy (db : Db) :
  (forall r, can_read_assignment db None r = false)
  /\ (forall r, can_create_assignment db None r = false)
  /\ (forall c, can_manage_work_progress db None c = false)
  /\ (forall e, can_manage_evaluation db None e = false)
  /\ (forall a, can_write_area db None a = false)
  /\ visible_areas db None
     = filter (fun a => holds (bool_eq (area_is_active a) (Some true)))
         (areas db).
Proof.
  split; [|split; [|split; [|split; [|split]]]].
  - intros r. unfold can_read_assignment. rewrite has_role_anonymous.
    destruct (assigned_by r); destruct (assigned_to r); reflexivity.
  - intros r. unfold can_create_assignment. reflexivity.
  - intros c. unfold can_manage_work_progress. rewrite has_role_anonymous.
    reflexivity.
  - intros e. unfold can_manage_evaluation. rewrite has_role_anonymous.
    reflexivity.
  - intros a. apply is_admin_anonymous.
  - unfold visible_areas, can_read_area. apply filter_ext. intros a.
    rewrite is_admin_anonymous. apply orb_false_r.
Qed.

End PolicyFacts.

(** ** Properties of the profile bootstrap *)

Module BootstrapFacts.

Import Triggers Bootstrap.

Lemma user_type_check_passes (t : string) :
  check_passes (profiles_user_type_check (Some t)) = true
  <-> In t allowed_user_types.
Proof.
  unfold profiles_user_type_check, text_in, check_passes.
  destruct (existsb (String.eqb t) allowed_user_types) eqn:E.
  - split; [|reflexivity]. intros _.
    apply existsb_exists in E. destruct E as [x [Hx Heq]].
    apply String.eqb_eq in Heq. now subst.
  - split; [discriminate|]. intros Hin.
    assert (T : existsb (String.eqb t) allowed_user_types = true).
    { apply existsb_exists. exists t. split; [exact Hin|].
      apply String.eqb_refl. }
    rewrite T in E. discriminate.
Qed.

(** X17. A sign-up whose metadata carries no user_type (no metadata, no
    such key, or JSON null) and whose id is new gets a profile of type
    'user' with the identity's id and email, and the three name columns are
    never NULL. *)
Theorem signup_defaults_to_user (db : Db) (now : N) (NEW : AuthUser) :
  arrow_text (raw_user_meta_data NEW) "user_type" = None ->
  existsb (fun p => N.eqb (profile_id p) (auth_id NEW)) (profiles db) = false ->
  exists row,
    handle_new_user db now NEW = Ok row
    /\ pv_user_type row = Some "user"
    /\ pv_id row = auth_id NEW
    /\ pv_email row = auth_email NEW
    /\ pv_full_name row <> None
    /\ pv_first_name row <> None
    /\ pv_last_name row <> None.
Proof.
  intros Hmeta Hfresh. unfold handle_new_user. simpl.
  rewrite Hmeta, Hfresh. simpl. eexists. split; [reflexivity|]. simpl.
  repeat split; unfold COALESCE;
    match goal with |- context [arrow_text ?m ?k] =>
      now destruct (arrow_text m k) end.
Qed.

Lemma signup_defaults_to_user_witness :
  exists row,
    handle_new_user Samples.db0 7%N MoreSamples.plain_signup = Ok row
    /\ pv_user_type row = Some "user"
    /\ pv_full_name row = Some "".
Proof.
  destruct (signup_defaults_to_user Samples.db0 7%N MoreSamples.plain_signup
              eq_refl eq_refl) as [row [H1 [H2 _]]].
  exists row. split; [exact H1|]. split; [exact H2|].
  revert H1. unfold handle_new_user. simpl. intros H1. now injection H1 as <-.
Defined.

(** X18. The role of a new profile is whatever the sign-up metadata asks
    for: a user_type among the five the table allows, 'admin' included, is
    stored as it is, and any other value makes the sign-up fail on the
    check constraint. *)
Theorem signup_takes_requested_role (db : Db) (now : N) (NEW : AuthUser)
    (t : string) :
  arrow_text (raw_user_meta_data NEW) "user_type" = Some t ->
  (In t allowed_user_types ->
   existsb (fun p => N.eqb (profile_id p) (auth_id NEW)) (profiles db)
   = false ->
   exists row, handle_new_user db now NEW = Ok row
               /\ pv_user_type row = Some t)
  /\ (~ In t allowed_user_types ->
      handle_new_user db now NEW
      = Raise (check_violation "profiles_user_type_check")).
Proof.
  intros Hmeta. unfold handle_new_user. cbn [pv_user_type pv_id].
  rewrite Hmeta. cbn [COALESCE]. split.
  - intros Hin Hfresh.
    rewrite (proj2 (user_type_check_passes t) Hin), Hfresh. simpl.
    eexists. split; reflexivity.
  - intros Hnot.
    destruct (check_passes (profiles_user_type_check (Some t))) eqn:E;
      [|reflexivity].
    exfalso. apply Hnot. now apply user_type_check_passes.
Qed.

Lemma signup_takes_requested_role_witness :
  (exists row,
     handle_new_user Samples.db0 7%N MoreSamples.admin_signup = Ok row
     /\ pv_user_type row = Some "admin")
  /\ handle_new_user Samples.db0 7%N MoreSamples.odd_signup
     = Raise (check_violation "profiles_user_type_check").
Proof.
  split.
  - apply (proj1 (signup_takes_requested_role Samples.db0 7%N
                    MoreSamples.admin_signup "admin" eq_refl)).
    + simpl. auto.
    + reflexivity.
  - apply (proj2 (signup_takes_requested_role Samples.db0 7%N
                    MoreSamples.odd_signup "superuser" eq_refl)).
    simpl. intros H.
    repeat (destruct H as [H|H]; [discriminate H|]). exact H.
Defined.

End BootstrapFacts.

(** ** Splitting, trimming and joining the materials text *)

Module MaterialsFacts.

Import Tracker TrackerViews JSFacts.

Lemma split_nonempty (s : jsstring) : split 44 s <> [].
Proof.
  destruct s as [|c r]; simpl; [discriminate|].
  destruct (N.eqb c 44); [discriminate|].
  destruct (split 44 r); discriminate.
Qed.

Lemma split_no_comma (s : jsstring) : comma_free s -> split 44 s = [s].
Proof.
  unfold comma_free. induction s as [|c r IH]; simpl; [reflexivity|].
  intros H. destruct (N.eqb_spec c 44) as [->|_]; [exfalso; auto|].
  rewrite IH; auto.
Qed.

Lemma split_at_comma (x y : jsstring) :
  comma_free x -> split 44 (x ++ 44%N :: y) = x :: split 44 y.
Proof.
  unfold comma_free. induction x as [|c r IH]; simpl; [reflexivity|].
  intros H. destruct (N.eqb_spec c 44) as [->|_]; [exfalso; auto|].
  rewrite IH; auto.
Qed.

Lemma split_comma_free (s : jsstring) : Forall comma_free (split 44 s).
Proof.
  unfold comma_free. induction s as [|c r IH]; simpl.
  - constructor; [intros []|constructor].
  - destruct (N.eqb_spec c 44) as [->|Hc].
    + constructor; [intros []|exact IH].
    + destruct (split 44 r) as [|h t].
      * constructor; [|constructor]. intros [E|[]]. congruence.
      * inversion IH as [|? ? Hh Ht]; subst. constructor; [|exact Ht].
        intros [E|Hin]; [congruence|contradiction].
Qed.

Lemma trimStart_incl (s : jsstring) (c : N) :
  In c (trimStart s) -> In c s.
Proof.
  induction s as [|x r IH]; simpl; [auto|].
  destruct (isWhiteSpace x); simpl; auto.
Qed.

Lemma trimEnd_incl (s : jsstring) (c : N) : In c (trimEnd s) -> In c s.
Proof.
  induction s as [|x r IH]; simpl; [auto|].
  destruct (trimEnd r) as [|y t].
  - destruct (isWhiteSpace x); simpl; [intros []|]. intros [E|[]]. now left.
  - intros [E|H]; [now left|right; auto].
Qed.

Lemma trim_comma_free (s : jsstring) : comma_free s -> comma_free (trim s).
Proof.
  unfold comma_free, trim. intros H Hin.
  apply H, trimStart_incl, trimEnd_incl, Hin.
Qed.

Lemma parsed_entries_comma_free (l : list jsstring) :
  Forall comma_free l ->
  Forall comma_free (filter ToBoolean_string (map trim l)).
Proof.
  induction 1 as [|m l Hm _ IH]; simpl; [constructor|].
  destruct (ToBoolean_string (trim m)); [|exact IH].
  constructor; [now apply trim_comma_free|exact IH].
Qed.

Lemma trim_after_space (c : N) (s : jsstring) :
  isWhiteSpace c = true -> trim (c :: s) = trim s.
Proof. intros H. unfold trim. simpl. now rewrite H. Qed.

Lemma trimmed_after_space (s : jsstring) :
  map trim (split 44 (32%N :: s)) = map trim (split 44 s).
Proof.
  simpl. destruct (split 44 s) as [|h t] eqn:E.
  - exfalso. exact (split_nonempty s E).
  - simpl. now rewrite (trim_after_space 32 h eq_refl).
Qed.

Lemma join_then_split (l : list jsstring) (x : jsstring) :
  Forall tidy (x :: l) -> Forall comma_free (x :: l) ->
  map trim (split 44 (join (js ", ") (x :: l))) = x :: l.
Proof.
  revert x. induction l as [|y rest IH]; intros x Ht Hc;
    inversion Ht as [|? ? [Hx _] Htl]; inversion Hc as [|? ? Hcx Hcl]; subst.
  - simpl. rewrite (split_no_comma x Hcx). simpl. now rewrite Hx.
  - change (join (js ", ") (x :: y :: rest))
      with (x ++ 44%N :: 32%N :: join (js ", ") (y :: rest)).
    rewrite (split_at_comma x _ Hcx).
    change (map trim (x :: split 44 (32%N :: join (js ", ") (y :: rest))))
      with (trim x
            :: map trim (split 44 (32%N :: join (js ", ") (y :: rest)))).
    rewrite trimmed_after_space, Hx, (IH y Htl Hcl). reflexivity.
Qed.

Lemma nonblank_entries_kept (l : list jsstring) :
  Forall tidy l -> filter ToBoolean_string l = l.
Proof.
  induction 1 as [|m l [_ Hm] _ IH]; simpl; [reflexivity|].
  rewrite (TrackerFacts.ToBoolean_string_true m Hm). now rewrite IH.
Qed.

(** Re-reading the displayed text gives the entries back. *)
Lemma displayed_materials_reparse (l : list jsstring) :
  Forall tidy l -> Forall comma_free l ->
  filter ToBoolean_string (map trim (split 44 (join (js ", ") l))) = l.
Proof.
  intros Ht Hc. destruct l as [|x l]; [reflexivity|].
  rewrite join_then_split; [|exact Ht|exact Hc].
  now apply nonblank_entries_kept.
Qed.

End MaterialsFacts.

(** ** Further properties of the progress submission flow *)

Module TrackerExtras.

Import Tracker TrackerViews JSFacts TrackerFacts.

Section Flow.

Variable parseFloat : jsstring -> Number.
Variable parseInt : jsstring -> Number.
Variable uploadMultipleImages : list jsstring -> UploadOutcome.
Variable insert_error : Payload -> option Error.
Variable issueId tenderId : option jsstring.

Local Abbreviation submit :=
  (submit parseFloat uploadMultipleImages insert_error issueId tenderId).
Local Abbreviation effects_of_submit :=
  (effects_of_submit parseFloat uploadMultipleImages insert_error issueId
     tenderId).
Local Abbreviation progressPayload :=
  (progressPayload parseFloat issueId tenderId).
Local Abbreviation step :=
  (step parseFloat parseInt uploadMultipleImages insert_error issueId
     tenderId).
Local Abbreviation run :=
  (run parseFloat parseInt uploadMultipleImages insert_error issueId
     tenderId).

Lemma insert_call_means_valid (st : St) (p : Payload) :
  In (call_submitWorkProgress p) (effects_of_submit st) ->
  title (progressData (comp st)) <> []
  /\ description (progressData (comp st)) <> [].
Proof.
  flow.
  destruct (title (progressData (comp st))) as [|c t];
    destruct (description (progressData (comp st))) as [|c' d]; simpl;
    try (intros [F|[]]; discriminate F).
  intros _. split; discriminate.
Qed.

(** X19. Every payload handed to the store has a non-empty title and
    description, carries the issue and tender ids the component was opened
    with, and repeats the title, description, status, progress percentage,
    milestones and notes of the form as they were at submit time. *)
Theorem submitted_payload_fields (st : St) (p : Payload) :
  In (call_submitWorkProgress p) (effects_of_submit st) ->
  p_title p <> [] /\ p_description p <> []
  /\ p_issue_id p = issueId /\ p_tender_id p = tenderId
  /\ p_title p = title (progressData (comp st))
  /\ p_description p = description (progressData (comp st))
  /\ p_status p = status (progressData (comp st))
  /\ p_progress_percentage p = progress_percentage (progressData (comp st))
  /\ p_milestone_reached p = milestone_reached (progressData (comp st))
  /\ p_next_milestone p = next_milestone (progressData (comp st))
  /\ p_contractor_notes p = contractor_notes (progressData (comp st)).
Proof.
  intros H. destruct (insert_call_means_valid st p H) as [Ht Hd].
  apply submitted_is_progressPayload in H. destruct H as [urls ->].
  simpl. repeat split; auto.
Qed.

(** X20. A submission appends at most one row to the persisted
    work-progress rows and never removes or rewrites one; it makes at most
    one upload call and at most one insert call, and a row it appends is a
    payload it sent. *)
Theorem submission_appends_at_most_one_row (st : St) :
  exists rows,
    work_progress (submit st) = work_progress st ++ rows
    /\ (List.length rows <= 1)%nat
    /\ (forall p, In p rows ->
          In (call_submitWorkProgress p) (effects_of_submit st))
    /\ (List.length (filter is_upload_call (effects_of_submit st)) <= 1)%nat
    /\ (List.length (filter is_insert_call (effects_of_submit st)) <= 1)%nat.
Proof.
  flow.
  destruct (negb (ToBoolean_string (title (progressData (comp st))))
            || negb (ToBoolean_string
                       (description (progressData (comp st))))); simpl;
    [|destruct (Nat.ltb 0 (List.length (selectedImages (comp st)))); simpl;
      [destruct (uploadMultipleImages _); simpl|];
      try destruct (insert_error _); simpl];
    first [ exists []; rewrite app_nil_r; simpl;
            repeat split; auto; intros ? []
          | eexists [_]; simpl; repeat split; auto;
            intros ? [<-|[]]; auto ].
Qed.

(** X21. With no image selected the upload service is never called, and a
    payload that is sent carries an empty image list. *)
Theorem no_images_no_upload (st : St) :
  selectedImages (comp st) = [] ->
  (forall uris, ~ In (call_uploadMultipleImages uris) (effects_of_submit st))
  /\ (forall p, In (call_submitWorkProgress p) (effects_of_submit st) ->
        p_images p = []).
Proof.
  intros Hi. flow. rewrite Hi. simpl.
  destruct (negb (ToBoolean_string (title (progressData (comp st))))
            || negb (ToBoolean_string
                       (description (progressData (comp st))))); simpl;
    [|destruct (insert_error _); simpl]; split; intros x H;
    repeat (destruct H as [H|H]); try discriminate; try contradiction;
    injection H as <-; reflexivity.
Qed.

Lemma step_status (st : St) (ev : Event) :
  In (status (progressData (comp st))) offered_statuses ->
  In (status (progressData (comp (step st ev)))) offered_statuses.
Proof.
  unfold Tracker.step. intros H. destruct ev; simpl; auto.
  - destruct s; simpl; auto.
  - destruct (loading (comp st)); simpl; auto.
    now rewrite (proj1 (handleSubmit_keeps_form parseFloat
                          uploadMultipleImages insert_error issueId tenderId
                          _ _ st)).
Qed.

Lemma run_status (evs : list Event) :
  In (status (progressData (comp (run evs)))) offered_statuses.
Proof.
  unfold Tracker.run.
  assert (H : In (status (progressData (comp initialState)))
                offered_statuses) by (left; reflexivity).
  revert H. generalize initialState.
  induction evs as [|ev evs IH]; simpl; intros st H; auto.
  apply IH, step_status, H.
Qed.

(** X22. Whatever the user does with the form, the status of a payload it
    submits is one of the three the form offers, each of which the status
    check of the work_progress table allows. *)
Theorem submitted_status_is_allowed (evs : list Event) (p : Payload) :
  In (call_submitWorkProgress p) (effects_of_submit (run evs)) ->
  In (p_status p) offered_statuses
  /\ In (p_status p) work_progress_statuses.
Proof.
  intros H. apply submitted_is_progressPayload in H.
  destruct H as [urls ->]. simpl.
  pose proof (run_status evs) as Hs. split; [exact Hs|].
  destruct Hs as [<-|[<-|[<-|[]]]]; simpl; auto.
Qed.

(** X23. Removing the image at a position drops that one image and keeps
    the others in order; a position past the end removes nothing, and
    removing the image just picked restores the selection. *)
Theorem removeImage_spec (index : nat) (imgs : list Asset) :
  removeImage index imgs = firstn index imgs ++ skipn (S index) imgs
  /\ ((List.length imgs <= index)%nat -> removeImage index imgs = imgs)
  /\ ((index < List.length imgs)%nat ->
      S (List.length (removeImage index imgs)) = List.length imgs)
  /\ (forall a, removeImage (List.length imgs) (imgs ++ [a]) = imgs).
Proof.
  assert (E : forall i l,
            removeImage i l = firstn i l ++ skipn (S i) l).
  { intros i l. revert i. induction l as [|x l IH]; intros [|i]; simpl;
      try reflexivity. now rewrite IH. }
  split; [apply E|]. split; [|split].
  - intros H. rewrite E, firstn_all2 by exact H.
    rewrite skipn_all2 by lia. apply app_nil_r.
  - intros H. rewrite E, length_app, firstn_length_le, length_skipn by lia.
    lia.
  - intros a. clear E. induction imgs as [|x l IH]; simpl; [reflexivity|].
    now rewrite IH.
Qed.

Lemma submit_success (st : St) (urls : list jsstring) :
  title (progressData (comp st)) <> [] ->
  description (progressData (comp st)) <> [] ->
  upload_step_yields uploadMultipleImages st urls ->
  insert_error (progressPayload (progressData (comp st)) urls) = None ->
  comp (submit st)
  = mkComponent (progressData (comp st)) (selectedImages (comp st)) false
  /\ work_progress (submit st)
     = work_progress st ++ [progressPayload (progressData (comp st)) urls].
Proof.
  intros Ht Hd Hup Hins. flow.
  rewrite (ToBoolean_string_true _ Ht), (ToBoolean_string_true _ Hd).
  simpl.
  destruct Hup as [[Hi ->] | [Hi [r [Hu ->]]]].
  - rewrite Hi. simpl.
    fold (progressPayload (progressData (comp st)) []).
    rewrite Hins. simpl. auto.
  - rewrite (attached _ Hi), Hu. simpl. rewrite imageUrls_all.
    fold (progressPayload (progressData (comp st)) (map url (successful r))).
    rewrite Hins. simpl. auto.
Qed.

(** X24. The form is not cleared by a successful submission itself, only
    by the OK button of the success alert: pressing submit a second time
    before that sends the same payload again and persists a second,
    identical row. *)
Theorem resubmission_duplicates_row (st : St) (urls : list jsstring) :
  title (progressData (comp st)) <> [] ->
  description (progressData (comp st)) <> [] ->
  upload_step_yields uploadMultipleImages st urls ->
  insert_error (progressPayload (progressData (comp st)) urls) = None ->
  work_progress (submit (submit st))
  = work_progress st
    ++ [progressPayload (progressData (comp st)) urls;
        progressPayload (progressData (comp st)) urls].
Proof.
  intros Ht Hd Hup Hins.
  destruct (submit_success st urls Ht Hd Hup Hins) as [Hc Hw].
  destruct (submit_success (submit st) urls) as [_ Hw2].
  - now rewrite Hc.
  - now rewrite Hc.
  - unfold upload_step_yields in *. now rewrite Hc.
  - now rewrite Hc.
  - rewrite Hw2, Hw, Hc. simpl. now rewrite <- app_assoc.
Qed.

Lemma step_comma_free (st : St) (ev : Event) :
  Forall comma_free (materials_used (progressData (comp st))) ->
  Forall comma_free (materials_used (progressData (comp (step st ev)))).
Proof.
  unfold Tracker.step. intros H. destruct ev; simpl; auto.
  - apply MaterialsFacts.parsed_entries_comma_free,
      MaterialsFacts.split_comma_free.
  - destruct (loading (comp st)); simpl; auto.
    now rewrite (proj1 (handleSubmit_keeps_form parseFloat
                          uploadMultipleImages insert_error issueId tenderId
                          _ _ st)).
Qed.

Lemma run_comma_free (evs : list Event) :
  Forall comma_free (materials_used (progressData (comp (run evs)))).
Proof.
  unfold Tracker.run.
  assert (H : Forall comma_free
                (materials_used (progressData (comp initialState))))
    by constructor.
  revert H. generalize initialState.
  induction evs as [|ev evs IH]; simpl; intros st H; auto.
  apply IH, step_comma_free, H.
Qed.

(** X25. In every state the form can reach, the text the materials field
    displays reads back to the very entries it was made from: typing the
    displayed text again changes no material entry. *)
Theorem displayed_materials_round_trip (evs : list Event) :
  materials_used
    (progressData
       (comp (step (run evs)
                (ChangeMaterialsUsed
                   (materials_field_value (progressData (comp (run evs))))))))
  = materials_used (progressData (comp (run evs))).
Proof.
  unfold Tracker.step, materials_field_value. simpl.
  apply MaterialsFacts.displayed_materials_reparse.
  - apply (run_tidy parseFloat parseInt uploadMultipleImages insert_error
             issueId tenderId evs).
  - apply run_comma_free.
Qed.

End Flow.

Lemma submitted_payload_fields_witness :
  exists p,
    In (call_submitWorkProgress p)
       (effects_of_submit Samples.parse_digits Samples.upload_all_but_b
          Samples.accept_all (Some (js "issue-10")) (Some (js "tender-40"))
          Samples.ready)
    /\ p_title p = js "Patching"
    /\ p_issue_id p = Some (js "issue-10")
    /\ p_tender_id p = Some (js "tender-40").
Proof.
  eexists.
  assert (Hin : In (call_submitWorkProgress
                      (progressPayload Samples.parse_digits
                         (Some (js "issue-10")) (Some (js "tender-40"))
                         Samples.filled_form [js "https://cdn/a.jpg"]))
                   (effects_of_submit Samples.parse_digits
                      Samples.upload_all_but_b Samples.accept_all
                      (Some (js "issue-10")) (Some (js "tender-40"))
                      Samples.ready)).
  { right. left. reflexivity. }
  destruct (submitted_payload_fields Samples.parse_digits
              Samples.upload_all_but_b Samples.accept_all
              (Some (js "issue-10")) (Some (js "tender-40"))
              Samples.ready _ Hin)
    as [_ [_ [H1 [H2 [H3 _]]]]].
  split; [exact Hin|]. split; [exact H3|]. split; [exact H1|exact H2].
Defined.

Lemma no_images_no_upload_witness :
  selectedImages (comp MoreSamples.no_photos) = []
  /\ forall p,
       In (call_submitWorkProgress p)
          (effects_of_submit Samples.parse_digits Samples.upload_down
             Samples.accept_all None None MoreSamples.no_photos) ->
       p_images p = [].
Proof.
  split; [reflexivity|].
  exact (proj2 (no_images_no_upload Samples.parse_digits
                  Samples.upload_down Samples.accept_all None None
                  MoreSamples.no_photos eq_refl)).
Defined.

Lemma submitted_status_is_allowed_witness :
  exists p,
    In (call_submitWorkProgress p)
       (effects_of_submit Samples.parse_digits Samples.upload_all_but_b
          Samples.accept_all None None
          (run Samples.parse_digits Samples.parse_digits
             Samples.upload_all_but_b Samples.accept_all None None
             MoreSamples.filling_on_hold))
    /\ p_status p = js "on_hold"
    /\ In (p_status p) work_progress_statuses.
Proof.
  eexists.
  assert (Hin : In (call_submitWorkProgress
                      (progressPayload Samples.parse_digits None None
                         (progressData
                            (comp (run Samples.parse_digits
                                     Samples.parse_digits
                                     Samples.upload_all_but_b
                                     Samples.accept_all None None
                                     MoreSamples.filling_on_hold)))
                         [js "https://cdn/a.jpg"]))
                   (effects_of_submit Samples.parse_digits
                      Samples.upload_all_but_b Samples.accept_all None None
                      (run Samples.parse_digits Samples.parse_digits
                         Samples.upload_all_but_b Samples.accept_all None
                         None MoreSamples.filling_on_hold))).
  { right. left. reflexivity. }
  destruct (submitted_status_is_allowed Samples.parse_digits
              Samples.parse_digits Samples.upload_all_but_b
              Samples.accept_all None None MoreSamples.filling_on_hold _ Hin)
    as [_ H].
  split; [exact Hin|]. split; [reflexivity|exact H].
Defined.

Lemma resubmission_duplicates_row_witness :
  List.length
    (work_progress
       (submit Samples.parse_digits Samples.upload_all_but_b
          Samples.accept_all None None
          (submit Samples.parse_digits Samples.upload_all_but_b
             Samples.accept_all None None Samples.ready)))
  = 2%nat.
Proof.
  rewrite (resubmission_duplicates_row Samples.parse_digits
             Samples.upload_all_but_b Samples.accept_all None None
             Samples.ready [js "https://cdn/a.jpg"]).
  - reflexivity.
  - discriminate.
  - discriminate.
  - right. split; [discriminate|]. eexists. split; reflexivity.
  - reflexivity.
Defined.

End TrackerExtras.

(** ** Properties of the contractor work screen and the tab layout *)

Module ScreenFacts.

Import Screens.

Ltac screen_flow :=
  unfold mount, checkContractorAccess, loadWorkData, try_catch_finally,
    try_catch, bind, ret, throw, await, effect, setLoading, setUser,
    setAssignedWork, setWorkProgress, setStats, modify;
  simpl.

Lemma count_status_bound (l : list WorkItem) :
  (List.length (filter (fun w => strict_eq (work_status w) "awarded") l)
   + List.length (filter (fun w => strict_eq (work_status w) "completed") l)
   <= List.length l)%nat.
Proof.
  induction l as [|w l IH]; simpl; [lia|].
  destruct (work_status w) as [s|]; simpl; [|lia].
  unfold string_eqb.
  destruct (list_eq_dec N.eq_dec s (js "awarded")) as [->|_];
    destruct (list_eq_dec N.eq_dec _ (js "completed")) as [E|_];
    simpl; try lia.
  discriminate E.
Qed.

Section Collaborators.

Variable getCurrentUser : Reply User.
Variable getUserProfile : jsstring -> Reply ProfileData.
Variable getContractorDashboard : Reply Dashboard.
Variable getWorkProgress : option jsstring -> Reply (list ProgressRow).
Variable number_add : Number -> Number -> Number.
Variable type_error : Error.

Local Abbreviation mount :=
  (mount getCurrentUser getUserProfile getContractorDashboard
     getWorkProgress number_add type_error).
Local Abbreviation loadWorkData :=
  (loadWorkData getContractorDashboard getWorkProgress number_add
     type_error).


(** X27. Whoever passes the screen's access check is shown the work tab:
    given the same replies, the tab layout leaves a profile of type
    'tender' in its state and the tab's href is the screen's path. *)
Theorem admitted_sees_work_tab :
  admitted getCurrentUser getUserProfile ->
  work_tab_href (fst (loadUser getCurrentUser getUserProfile (None, [])))
  = Some (js "/contractor-work").
Proof.
  intros [u [p [Hu [Hp Ht]]]]. unfold loadUser. rewrite Hu, Hp. simpl.
  unfold work_tab_href. now rewrite Ht.
Qed.

(** X28. A load of the work data either leaves the statistics as they were
    or sets them from the list it has just put on display: the active and
    the completed projects are then counted among the displayed items, and
    together they are no more than the items displayed. *)
Theorem stats_follow_assigned_work (closure_user : option User)
    (st : ScreenSt) :
  let st' := snd (loadWorkData closure_user st) in
  stats (screen st') = stats (screen st)
  \/ (activeProjects (stats (screen st'))
      = List.length
          (filter (fun w => strict_eq (work_status w) "awarded")
             (assignedWork (screen st')))
      /\ completedProjects (stats (screen st'))
         = List.length
             (filter (fun w => strict_eq (work_status w) "completed")
                (assignedWork (screen st')))
      /\ (activeProjects (stats (screen st'))
          + completedProjects (stats (screen st'))
          <= List.length (assignedWork (screen st')))%nat).
Proof.
  screen_flow.
  destruct getContractorDashboard as [e|[d|] [de|]]; simpl; auto.
  destruct (getWorkProgress _) as [e|pd [pe|]]; simpl; auto.
  right. destruct (assignedWork_of d) as [l|]; simpl.
  - split; [reflexivity|]. split; [reflexivity|]. apply count_status_bound.
  - auto.
Qed.

(** X29. When the dashboard query fails, the load changes nothing on
    display but the loading flag and reports the failure. When the
    dashboard arrives but the progress query fails, the assigned work has
    already been replaced while the progress list and the statistics stay
    as they were, and the failure is reported. *)
Theorem failed_load_is_partial (closure_user : option User) (st : ScreenSt)
    (e : Error) :
  let st' := snd (loadWorkData closure_user st) in
  let report :=
    [console_error (js "Error loading work data:") e;
     Alert_alert (js "Error") (js "Failed to load work data")] in
  ((getContractorDashboard = rejects e
    \/ exists d, getContractorDashboard = resolves d (Some e)) ->
   assignedWork (screen st') = assignedWork (screen st)
   /\ workProgress (screen st') = workProgress (screen st)
   /\ stats (screen st') = stats (screen st)
   /\ loading (screen st') = false
   /\ effects st' = effects st ++ call_getContractorDashboard :: report)
  /\ (forall d,
        getContractorDashboard = resolves (Some d) None ->
        (getWorkProgress (option_map user_id closure_user) = rejects e
         \/ exists pd,
              getWorkProgress (option_map user_id closure_user)
              = resolves pd (Some e)) ->
        assignedWork (screen st')
        = match assignedWork_of d with Some l => l | None => [] end
        /\ workProgress (screen st') = workProgress (screen st)
        /\ stats (screen st') = stats (screen st)
        /\ loading (screen st') = false
        /\ effects st'
           = effects st
             ++ call_getContractorDashboard
                :: call_getWorkProgress (option_map user_id closure_user)
                :: report).
Proof.
  split.
  - intros [H | [d H]]; screen_flow; rewrite H; simpl;
      repeat rewrite <- app_assoc; repeat split.
  - intros d Hd [H | [pd H]]; screen_flow; rewrite Hd; simpl;
      rewrite H; simpl; repeat rewrite <- app_assoc; repeat split.
Qed.


End Collaborators.

Lemma admitted_sees_work_tab_witness :
  admitted MoreSamples.signed_in MoreSamples.tender_profile
  /\ work_tab_href
       (fst (loadUser MoreSamples.signed_in MoreSamples.tender_profile
               (None, [])))
     = Some (js "/contractor-work").
Proof.
  assert (H : admitted MoreSamples.signed_in MoreSamples.tender_profile).
  { eexists _, _. repeat split. }
  split; [exact H|].
  exact (admitted_sees_work_tab MoreSamples.signed_in
           MoreSamples.tender_profile H).
Defined.

End ScreenFacts.
